(** * The jaffle-shop benchmark harness (jaffle_shop_pipeline.py)

    A shallow embedding of the two-run benchmark script: a naive pipeline
    that yields one record at a time, an optimized pipeline that yields one
    page at a time, a timing decorator and the comparison printed by [main].

    The script is effectful Python: it reads the wall clock, draws UUIDs,
    writes [os.environ], prints, and calls into the dlt runtime.  Those
    effects are threaded through an explicit [World]; Python exceptions are
    the error half of a small state-and-error monad.  Elapsed times are
    binary64 floats, as in Python. *)

From Stdlib Require Import Floats ZArith NArith String Ascii List Lia DecimalString.
From stdpp Require Import gmap strings list.

Open Scope string_scope.
Open Scope list_scope.
Open Scope nat_scope.

(** ** Python values used by the script *)

(** A record of the REST API (one JSON object); the harness never looks inside. *)
Definition Item : Type := string.

(** The [load_info] returned by [pipeline.run]; opaque to the harness. *)
Definition LoadInfo : Type := string.

(** Exceptions that can travel through the script. *)
Inductive Exn : Type :=
| ZeroDivisionError
| ExternalError (kind msg : string).

(** Values stored in the [run_settings] dictionary. *)
Inductive PyVal : Type :=
| PyBool (b : bool)
| PyInt (z : Z).

(** ** Float formatting: [f"{x:.2f}"]

    CPython formats the exact binary value, rounded half-to-even to two
    decimals. *)

Definition decimal (n : Z) : string := NilZero.string_of_uint (N.to_uint (Z.to_N n)).

Definition two_digits (n : Z) : string :=
  if (n <? 10)%Z then "0" +:+ decimal n else decimal n.

(** [num / den] rounded to the nearest integer, ties to even. *)
Definition round_half_even (num den : Z) : Z :=
  let q := (num / den)%Z in
  let r := (num mod den)%Z in
  if (den <? 2 * r)%Z then (q + 1)%Z
  else if ((2 * r =? den) && Z.odd q)%Z then (q + 1)%Z
  else q.

Definition hundredths (m : positive) (e : Z) : Z :=
  if (0 <=? e)%Z then (Z.pos m * 2 ^ e * 100)%Z
  else round_half_even (Z.pos m * 100) (2 ^ (- e)).

Definition format_2f (x : float) : string :=
  match Prim2SF x with
  | S754_nan => "nan"
  | S754_infinity s => if s then "-inf" else "inf"
  | S754_zero s => if s then "-0.00" else "0.00"
  | S754_finite s m e =>
      let h := hundredths m e in
      (if s then "-" else "") +:+ decimal (h / 100) +:+ "." +:+ two_digits (h mod 100)
  end.

(** ** UUIDs: [str(uuid.uuid4())[:8]] *)

Definition hex_digit (d : N) : ascii :=
  match d with
  | 0 => "0" | 1 => "1" | 2 => "2" | 3 => "3" | 4 => "4" | 5 => "5" | 6 => "6" | 7 => "7"
  | 8 => "8" | 9 => "9" | 10 => "a" | 11 => "b" | 12 => "c" | 13 => "d" | 14 => "e"
  | _ => "f"
  end%N%char.

(** The [width] lowest hexadecimal digits of [n], most significant first
    (['%032x' % n] when [width] is 32 and [n] is below [2^128]). *)
Fixpoint hex_fixed (width : nat) (n : N) : string :=
  match width with
  | O => ""
  | S w => String (hex_digit ((n / 16 ^ N.of_nat w) mod 16)%N) (hex_fixed w n)
  end.

(** [str(u)] for a UUID whose 128-bit integer is [u]: 8-4-4-4-12 hex digits. *)
Definition uuid_str (u : N) : string :=
  let hex := hex_fixed 32 u in
  substring 0 8 hex +:+ "-" +:+ substring 8 4 hex +:+ "-" +:+ substring 12 4 hex
  +:+ "-" +:+ substring 16 4 hex +:+ "-" +:+ substring 20 12 hex.

(** The slice [s[:n]]. *)
Definition str_prefix (n : nat) (s : string) : string := substring 0 n s.

(** ** Pipelines, resources and generators *)

Record Pipeline : Type := {
  pipeline_name : string;
  destination : string;
  dataset_name : string;
  dev_mode : bool;
  run_settings : gmap string (gmap string PyVal)
}.

(** What a generator produced when it was driven to its end: the values it
    yielded, in order, and the exception that ended it, if any. *)
Record Gen (A : Type) : Type := {
  yielded : list A;
  raised : option Exn
}.
Arguments yielded {A} _.
Arguments raised {A} _.

(** [yield x] *)
Definition yield {A} (x : A) : Gen A := {| yielded := [x]; raised := None |}.

(** An empty generator body. *)
Definition gen_done {A} : Gen A := {| yielded := []; raised := None |}.

(** Sequencing of generator bodies: the second runs only if the first ended
    without raising. *)
Definition gen_seq {A} (g1 g2 : Gen A) : Gen A :=
  match raised g1 with
  | Some e => g1
  | None => {| yielded := yielded g1 ++ yielded g2; raised := raised g2 |}
  end.

(** [for x in l: body x] over a list. *)
Fixpoint for_in_list {A B} (l : list A) (body : A → Gen B) : Gen B :=
  match l with
  | [] => gen_done
  | x :: l' => gen_seq (body x) (for_in_list l' body)
  end.

(** [for x in g: body x] over another generator: the body runs for each value
    [g] yields, then the exception that ended [g] (if any) is re-raised. *)
Definition for_in {A B} (g : Gen A) (body : A → Gen B) : Gen B :=
  gen_seq (for_in_list (yielded g) body) {| yielded := []; raised := raised g |}.

(** A unit handed to the runtime: a single record or a whole page. *)
Inductive Yielded : Type :=
| YItem (item : Item)
| YPage (page : list Item).

(** The records carried by one unit, and by a sequence of units. *)
Definition unit_items (y : Yielded) : list Item :=
  match y with
  | YItem i => [i]
  | YPage p => p
  end.

Definition flatten_units (ys : list Yielded) : list Item := concat (map unit_items ys).

(** A [@dlt.resource]: its declared name and write disposition, and the
    generator function behind it. *)
Record Resource : Type := {
  name : string;
  write_disposition : string;
  generator : Gen Yielded
}.

(** The argument of [pipeline.run]: a plain list of resources (naive) or a
    [@dlt.source] grouping them (optimized). *)
Inductive RunData : Type :=
| ResourceList (resources : list Resource)
| Source (source_name : string) (resources : list Resource).

Definition run_resources (d : RunData) : list Resource :=
  match d with
  | ResourceList rs => rs
  | Source _ rs => rs
  end.

(** ** The REST client and its paginator *)

Record PageNumberPaginator : Type := {
  base_page : nat;
  page_param : string;
  total_path : option string;
  stop_after_empty_page : bool;
  maximum_page : nat
}.

Record RESTClient : Type := {
  base_url : string;
  paginator : PageNumberPaginator
}.

(** The remote API: the answer to [GET <url>?page=<n>], a JSON array of
    records or a transport/decoding failure. *)
Definition Api : Type := string → nat → list Item + Exn.

(** What one pagination did: the pages it handed to the loop body, the page
    numbers it requested, and the failure that ended it, if any. *)
Record Pagination : Type := {
  pages : list (list Item);
  fetched : list nat;
  failure : option Exn
}.

Definition is_empty_page (data : list Item) : bool :=
  match data with
  | [] => true
  | _ :: _ => false
  end.

(** Modelled from the spec: [RESTClient.paginate] and [PageNumberPaginator]
    belong to the dlt library, which is not part of the source tree.  The
    spec (4.1, 6, 8.1-8.3) has successive pages requested, starting at the
    base page, until a page comes back empty or the configured maximum
    number of pages has been requested; only non-empty pages are handed on;
    a failed fetch surfaces as it is.  [remaining] counts the requests still
    allowed. *)
Fixpoint paginate_loop (fetch : nat → list Item + Exn) (stop_after_empty : bool)
    (page remaining : nat) : Pagination :=
  match remaining with
  | O => {| pages := []; fetched := []; failure := None |}
  | S remaining' =>
      match fetch page with
      | inr e => {| pages := []; fetched := [page]; failure := Some e |}
      | inl data =>
          if stop_after_empty && is_empty_page data
          then {| pages := []; fetched := [page]; failure := None |}
          else
            let rest := paginate_loop fetch stop_after_empty (S page) remaining' in
            {| pages := data :: pages rest;
               fetched := page :: fetched rest;
               failure := failure rest |}
      end
  end.

(** [client.paginate(endpoint)] *)
Definition paginate (api : Api) (client : RESTClient) (endpoint : string) : Pagination :=
  let p := paginator client in
  paginate_loop (api (base_url client +:+ "/" +:+ endpoint))
    (stop_after_empty_page p) (base_page p) (maximum_page p).

(** The same pagination seen as the generator a [for] loop iterates over. *)
Definition paginate_gen (api : Api) (client : RESTClient) (endpoint : string)
    : Gen (list Item) :=
  let r := paginate api client endpoint in
  {| yielded := pages r; raised := failure r |}.

(** ** The world the script runs in *)

Inductive Event : Type :=
| EvSetEnv (key value : string)
| EvUuid4 (u : N)
| EvPipeline (p : Pipeline)
| EvRunStarted (p : Pipeline) (data : RunData) (env : gmap string string)
| EvRunFinished (p : Pipeline) (outcome : LoadInfo + Exn).

Record World : Type := {
  clock : float;                     (* what [time.time()] returns now *)
  environ : gmap string string;      (* [os.environ] *)
  uuids_drawn : nat;                 (* calls of [uuid.uuid4()] so far *)
  stdout : list string;              (* one entry per [print] *)
  trace : list Event                 (* calls that left the harness, oldest first *)
}.

(** Everything outside the script that its behaviour depends on. *)
Record Externals : Type := {
  api : Api;
  (* the 128-bit integer of the UUID returned by the n-th [uuid.uuid4()] *)
  uuid4_int : nat → N;
  (* seconds spent inside [dlt.pipeline(...)], by pipeline name *)
  pipeline_seconds : string → float;
  (* [pipeline.run(data)] under a given environment: its outcome and the
     seconds it took *)
  runtime : Pipeline → RunData → gmap string string → (LoadInfo + Exn) * float;
  (* [threading.current_thread().name] and [threading.active_count()] at the
     end of [main] *)
  thread_name : string;
  active_count : nat
}.

(** ** The state-and-exception monad *)

Definition M (A : Type) : Type := World → (A + Exn) * World.

Definition ret {A} (a : A) : M A := fun w => (inl a, w).

Definition raise {A} (e : Exn) : M A := fun w => (inr e, w).

Definition bind {A B} (c : M A) (k : A → M B) : M B :=
  fun w =>
    match c w with
    | (inl a, w') => k a w'
    | (inr e, w') => (inr e, w')
    end.

Notation "x <- c1 ;; c2" := (bind c1 (fun x => c2))
  (at level 100, c1 at next level, right associativity).
Notation "c1 ;; c2" := (bind c1 (fun _ => c2))
  (at level 100, right associativity).

(** A pure result, failed or not, as a computation. *)
Definition lift {A} (r : A + Exn) : M A :=
  match r with
  | inl a => ret a
  | inr e => raise e
  end.

Definition set_clock (t : float) (w : World) : World :=
  {| clock := t; environ := environ w; uuids_drawn := uuids_drawn w;
     stdout := stdout w; trace := trace w |}.

Definition set_environ (env : gmap string string) (w : World) : World :=
  {| clock := clock w; environ := env; uuids_drawn := uuids_drawn w;
     stdout := stdout w; trace := trace w |}.

Definition set_uuids_drawn (n : nat) (w : World) : World :=
  {| clock := clock w; environ := environ w; uuids_drawn := n;
     stdout := stdout w; trace := trace w |}.

Definition set_stdout (out : list string) (w : World) : World :=
  {| clock := clock w; environ := environ w; uuids_drawn := uuids_drawn w;
     stdout := out; trace := trace w |}.

Definition set_trace (t : list Event) (w : World) : World :=
  {| clock := clock w; environ := environ w; uuids_drawn := uuids_drawn w;
     stdout := stdout w; trace := t |}.

(** [time.time()] *)
Definition time_time : M float := fun w => (inl (clock w), w).

(** Wall-clock time passing while an external call runs. *)
Definition elapse (seconds : float) : M unit :=
  fun w => (inl tt, set_clock (clock w + seconds)%float w).

(** [print(s)] *)
Definition print (s : string) : M unit :=
  fun w => (inl tt, set_stdout (stdout w ++ [s]) w).

(** Recording a call that leaves the harness. *)
Definition emit (ev : Event) : M unit :=
  fun w => (inl tt, set_trace (trace w ++ [ev]) w).

(** [os.environ[key] = value] *)
Definition os_environ_set (key value : string) : M unit :=
  fun w => (inl tt, set_trace (trace w ++ [EvSetEnv key value])
                      (set_environ (<[key := value]> (environ w)) w)).

(** [uuid.uuid4()] *)
Definition uuid4 (X : Externals) : M N :=
  fun w =>
    let u := uuid4_int X (uuids_drawn w) in
    (inl u, set_trace (trace w ++ [EvUuid4 u]) (set_uuids_drawn (S (uuids_drawn w)) w)).

(** [dlt.pipeline(pipeline_name=..., destination=..., dataset_name=...,
    dev_mode=...)]: a fresh pipeline object with no run settings yet. *)
Definition dlt_pipeline (X : Externals) (pipeline_name destination dataset_name : string)
    (dev_mode : bool) : M Pipeline :=
  let p := {| pipeline_name := pipeline_name; destination := destination;
              dataset_name := dataset_name; dev_mode := dev_mode;
              run_settings := ∅ |} in
  elapse (pipeline_seconds X pipeline_name) ;;
  emit (EvPipeline p) ;;
  ret p.

(** [pipeline.run_settings = settings] *)
Definition set_run_settings (settings : gmap string (gmap string PyVal)) (p : Pipeline)
    : Pipeline :=
  {| pipeline_name := pipeline_name p; destination := destination p;
     dataset_name := dataset_name p; dev_mode := dev_mode p;
     run_settings := settings |}.

(** [pipeline.run(data)]: the call into the external runtime.  It sees the
    process environment as it is at the call and leaves it as it is, takes
    the time the runtime takes, and either returns the load info or
    raises. *)
Definition pipeline_run (X : Externals) (p : Pipeline) (data : RunData) : M LoadInfo :=
  fun w =>
    let '(outcome, seconds) := runtime X p data (environ w) in
    let w1 := set_trace (trace w ++ [EvRunStarted p data (environ w)]) w in
    let w2 := set_clock (clock w1 + seconds)%float w1 in
    (outcome, set_trace (trace w2 ++ [EvRunFinished p outcome]) w2).

(** Python's [a / b] on floats. *)
Definition float_truediv (a b : float) : float + Exn :=
  if (b =? 0)%float then inr ZeroDivisionError
  else inl (a / b)%float.

(** ** jaffle_shop_pipeline.py *)

Definition BASE_URL : string := "https://jaffle-shop.scalevector.ai/api/v1".
Definition ENDPOINTS : list string := ["customers"; "orders"; "products"].

(** The newline that starts some of the printed lines. *)
Definition nl : string := String (ascii_of_nat 10) "".

(** [@time_execution]: the decorated function is whatever [func] is; the
    clock is read immediately before and immediately after it. *)
Definition time_execution {A} (func_name : string) (func : M A) : M (A * float) :=
  start_time <- time_time ;;
  result <- func ;;
  end_time <- time_time ;;
  let execution_time := (end_time - start_time)%float in
  print (func_name +:+ " completed in " +:+ format_2f execution_time +:+ " seconds") ;;
  ret (result, execution_time).

(** The closures of [create_naive_pipeline]. *)
Module Naive.

Definition client : RESTClient :=
  {| base_url := BASE_URL;
     paginator := {| base_page := 1; page_param := "page"; total_path := None;
                     stop_after_empty_page := true; maximum_page := 5 |} |}.

Definition customers (api : Api) : Resource :=
  {| name := "customers"; write_disposition := "replace";
     generator :=
       for_in (paginate_gen api client "customers") (fun page =>
         for_in_list page (fun item => yield (YItem item))) |}.

Definition orders (api : Api) : Resource :=
  {| name := "orders"; write_disposition := "replace";
     generator :=
       for_in (paginate_gen api client "orders") (fun page =>
         for_in_list page (fun item => yield (YItem item))) |}.

Definition products (api : Api) : Resource :=
  {| name := "products"; write_disposition := "replace";
     generator :=
       for_in (paginate_gen api client "products") (fun page =>
         for_in_list page (fun item => yield (YItem item))) |}.

End Naive.

Definition create_naive_pipeline (X : Externals) : M (Pipeline * list Resource) :=
  let customers := Naive.customers (api X) in
  let orders := Naive.orders (api X) in
  let products := Naive.products (api X) in
  u <- uuid4 X ;;
  let pipeline_uuid := str_prefix 8 (uuid_str u) in
  pipeline <- dlt_pipeline X ("jaffle_benchmark_" +:+ pipeline_uuid) "duckdb"
                ("jaffle_naive_" +:+ pipeline_uuid) false ;;
  ret (pipeline, [customers; orders; products]).

Definition run_naive_pipeline (X : Externals) : M (LoadInfo * float) :=
  time_execution "run_naive_pipeline"
    (r <- create_naive_pipeline X ;;
     let '(pipeline, resources) := r in
     load_info <- pipeline_run X pipeline (ResourceList resources) ;;
     ret load_info).

(** The closures of [create_optimized_pipeline]. *)
Module Optimized.

Definition client : RESTClient :=
  {| base_url := BASE_URL;
     paginator := {| base_page := 1; page_param := "page"; total_path := None;
                     stop_after_empty_page := true; maximum_page := 5 |} |}.

Definition customers (api : Api) : Resource :=
  {| name := "customers"; write_disposition := "replace";
     generator :=
       for_in (paginate_gen api client "customers") (fun page => yield (YPage page)) |}.

Definition orders (api : Api) : Resource :=
  {| name := "orders"; write_disposition := "replace";
     generator :=
       for_in (paginate_gen api client "orders") (fun page => yield (YPage page)) |}.

Definition products (api : Api) : Resource :=
  {| name := "products"; write_disposition := "replace";
     generator :=
       for_in (paginate_gen api client "products") (fun page => yield (YPage page)) |}.

Definition jaffle_shop_source (api : Api) : RunData :=
  Source "jaffle_shop" [customers api; orders api; products api].

(** The dictionary assigned to [pipeline.run_settings]. *)
Definition settings : gmap string (gmap string PyVal) :=
  {[ "execution" := {[ "parallelized" := PyBool false ]};
     "extract" := {[ "buffer_max_items" := PyInt 10000 ]};
     "normalize" := {[ "file_rotation_size_mb" := PyInt 100 ]} ]}.

End Optimized.

Definition create_optimized_pipeline (X : Externals) : M (Pipeline * RunData) :=
  os_environ_set "EXTRACT__WORKERS" "2" ;;
  os_environ_set "NORMALIZE__WORKERS" "2" ;;
  os_environ_set "LOAD__WORKERS" "2" ;;
  u <- uuid4 X ;;
  let pipeline_uuid := str_prefix 8 (uuid_str u) in
  pipeline <- dlt_pipeline X ("jaffle_benchmark_" +:+ pipeline_uuid) "duckdb"
                ("jaffle_optimized_" +:+ pipeline_uuid) false ;;
  let pipeline := set_run_settings Optimized.settings pipeline in
  ret (pipeline, Optimized.jaffle_shop_source (api X)).

Definition run_optimized_pipeline (X : Externals) : M (LoadInfo * float) :=
  time_execution "run_optimized_pipeline"
    (r <- create_optimized_pipeline X ;;
     let '(pipeline, source) := r in
     load_info <- pipeline_run X pipeline source ;;
     ret load_info).

(** Line 159: [(naive_time - optimized_time) / naive_time * 100]. *)
Definition improvement (naive_time optimized_time : float) : float + Exn :=
  match float_truediv (naive_time - optimized_time) naive_time with
  | inl q => inl (q * 100)%float
  | inr e => inr e
  end.

(** The six lines printed under "OPTIMIZATION DETAILS". *)
Definition optimization_details : list string :=
  [ "1. Chunking: Yielding entire pages instead of individual items";
    "2. Parallelism: Setting parallelized=True and configuring worker counts";
    "3. Buffer Control: Increasing buffer_max_items to 10000";
    "4. File Rotation: Setting file_rotation_size_mb to 100";
    "5. Worker Tuning: Setting EXTRACT__WORKERS, NORMALIZE__WORKERS, and LOAD__WORKERS to 2";
    "6. Source Grouping: Grouping resources into a source for better orchestration" ].

(** Printing several lines, one [print] each. *)
Fixpoint print_all (lines : list string) : M unit :=
  match lines with
  | [] => ret tt
  | l :: ls => print l ;; print_all ls
  end.

Definition main (X : Externals) : M unit :=
  print "Running naive pipeline..." ;;
  naive <- run_naive_pipeline X ;;
  let '(naive_result, naive_time) := naive in
  print (nl +:+ "Running optimized pipeline...") ;;
  optimized <- run_optimized_pipeline X ;;
  let '(optimized_result, optimized_time) := optimized in
  improvement <- lift (improvement naive_time optimized_time) ;;
  print (nl +:+ "========== PERFORMANCE RESULTS ==========") ;;
  print ("Naive pipeline: " +:+ format_2f naive_time +:+ " seconds") ;;
  print ("Optimized pipeline: " +:+ format_2f optimized_time +:+ " seconds") ;;
  print ("Performance improvement: " +:+ format_2f improvement +:+ "%") ;;
  print (nl +:+ "========== THREAD INFORMATION ==========") ;;
  print ("Current thread: " +:+ thread_name X) ;;
  print ("Active thread count: " +:+ decimal (Z.of_nat (active_count X))) ;;
  print (nl +:+ "========== OPTIMIZATION DETAILS ==========") ;;
  print "Key optimizations applied:" ;;
  print_all optimization_details.

(** ** prod_jaffle_shop_pipeline.py *)

(** The closures of [jaffle_shop_pipeline]. *)
Module Prod.

Definition client : RESTClient :=
  {| base_url := BASE_URL;
     paginator := {| base_page := 1; page_param := "page"; total_path := None;
                     stop_after_empty_page := true; maximum_page := 5 |} |}.

Definition customers (api : Api) : Resource :=
  {| name := "customers"; write_disposition := "replace";
     generator :=
       for_in (paginate_gen api client "customers") (fun page => yield (YPage page)) |}.

Definition orders (api : Api) : Resource :=
  {| name := "orders"; write_disposition := "replace";
     generator :=
       for_in (paginate_gen api client "orders") (fun page => yield (YPage page)) |}.

Definition products (api : Api) : Resource :=
  {| name := "products"; write_disposition := "replace";
     generator :=
       for_in (paginate_gen api client "products") (fun page => yield (YPage page)) |}.

Definition jaffle_shop_source (api : Api) : RunData :=
  Source "jaffle_shop" [customers api; orders api; products api].

(** The dictionary assigned to [pipeline.run_settings]. *)
Definition settings : gmap string (gmap string PyVal) :=
  {[ "extract" := {[ "buffer_max_items" := PyInt 10000 ]};
     "normalize" := {[ "file_rotation_size_mb" := PyInt 100 ]} ]}.

End Prod.

Definition jaffle_shop_pipeline (X : Externals) : M (Pipeline * RunData) :=
  pipeline <- dlt_pipeline X "jaffle_shop" "duckdb" "jaffle_shop_data" false ;;
  let pipeline := set_run_settings Prod.settings pipeline in
  ret (pipeline, Prod.jaffle_shop_source (api X)).

(** The entry point for deployment. *)
Definition run_pipeline (X : Externals) : M LoadInfo :=
  r <- jaffle_shop_pipeline X ;;
  let '(pipeline, source) := r in
  load_info <- pipeline_run X pipeline source ;;
  ret load_info.

(** ** Repeated construction

    [n] configurations built one after the other in the same process, with
    the dataset name of each. *)
Fixpoint construct_many {A} (n : nat) (create : M (Pipeline * A)) : M (list string) :=
  match n with
  | O => ret []
  | S n' =>
      r <- create ;;
      rest <- construct_many n' create ;;
      ret (dataset_name (fst r) :: rest)
  end.

(** ** Worlds and externals used in examples *)

Definition initial_world : World :=
  {| clock := 0%float; environ := ∅; uuids_drawn := 0; stdout := []; trace := [] |}.

(** Three pages of customers, then nothing; every other endpoint is empty. *)
Definition sample_api : Api :=
  fun url page =>
    if String.eqb url (BASE_URL +:+ "/customers") then
      match page with
      | 1 => inl ["c1"; "c2"]
      | 2 => inl ["c3"]
      | 3 => inl ["c4"; "c5"; "c6"]
      | _ => inl []
      end
    else inl [].

(** A runtime that always succeeds; the run takes [naive_s] seconds on a
    dataset named [jaffle_naive_...] and [optimized_s] seconds otherwise. *)
Definition sample_externals (construct_s naive_s optimized_s : float) : Externals :=
  {| api := sample_api;
     uuid4_int := fun n => (0xdeadbeef000040008000000000000000 + N.of_nat n)%N;
     pipeline_seconds := fun _ => construct_s;
     runtime := fun p _ _ =>
       (inl "loaded",
        if String.prefix "jaffle_naive_" (dataset_name p) then naive_s else optimized_s);
     thread_name := "MainThread";
     active_count := 1 |}.

(** ** Vocabulary of the statements *)

(** A run of [n] successive pages from [start] on, all served and non-empty. *)
Definition serves (fetch : nat → list Item + Exn) (served : nat → list Item)
    (start n : nat) : Prop :=
  ∀ k, k < n → fetch (start + k) = inl (served (start + k)) ∧ served (start + k) ≠ [].

(** The URL a client requests for an endpoint. *)
Definition endpoint_url (endpoint : string) : string := BASE_URL +:+ "/" +:+ endpoint.

(** The resources each variant hands to the runtime, in the order of
    [ENDPOINTS]. *)
Definition item_resources (api : Api) : list Resource :=
  [Naive.customers api; Naive.orders api; Naive.products api].

Definition page_resources (api : Api) : list Resource :=
  run_resources (Optimized.jaffle_shop_source api).

(** The UUID the next construction will draw, and the prefix kept of it. *)
Definition next_uuid (X : Externals) (w : World) : N := uuid4_int X (uuids_drawn w).

Definition next_pipeline_uuid (X : Externals) (w : World) : string :=
  str_prefix 8 (uuid_str (next_uuid X w)).

(** The pipeline object each variant builds when started in world [w]. *)
Definition naive_pipeline (X : Externals) (w : World) : Pipeline :=
  {| pipeline_name := "jaffle_benchmark_" +:+ next_pipeline_uuid X w;
     destination := "duckdb";
     dataset_name := "jaffle_naive_" +:+ next_pipeline_uuid X w;
     dev_mode := false;
     run_settings := ∅ |}.

Definition optimized_pipeline (X : Externals) (w : World) : Pipeline :=
  {| pipeline_name := "jaffle_benchmark_" +:+ next_pipeline_uuid X w;
     destination := "duckdb";
     dataset_name := "jaffle_optimized_" +:+ next_pipeline_uuid X w;
     dev_mode := false;
     run_settings := Optimized.settings |}.

(** The environment once the three worker variables are written. *)
Definition tuned_environ (env : gmap string string) : gmap string string :=
  <["LOAD__WORKERS" := "2"]>
    (<["NORMALIZE__WORKERS" := "2"]> (<["EXTRACT__WORKERS" := "2"]> env)).

(** What the runtime answers to each variant started in world [w]. *)
Definition naive_answer (X : Externals) (w : World) : (LoadInfo + Exn) * float :=
  runtime X (naive_pipeline X w) (ResourceList (item_resources (api X))) (environ w).

Definition optimized_answer (X : Externals) (w : World) : (LoadInfo + Exn) * float :=
  runtime X (optimized_pipeline X w) (Optimized.jaffle_shop_source (api X))
    (tuned_environ (environ w)).

(** The world right after construction. *)
Definition naive_created (X : Externals) (w : World) : World :=
  {| clock := (clock w + pipeline_seconds X (pipeline_name (naive_pipeline X w)))%float;
     environ := environ w;
     uuids_drawn := S (uuids_drawn w);
     stdout := stdout w;
     trace := trace w ++ [EvUuid4 (next_uuid X w); EvPipeline (naive_pipeline X w)] |}.

Definition optimized_created (X : Externals) (w : World) : World :=
  {| clock := (clock w + pipeline_seconds X (pipeline_name (optimized_pipeline X w)))%float;
     environ := tuned_environ (environ w);
     uuids_drawn := S (uuids_drawn w);
     stdout := stdout w;
     trace := trace w ++
       [EvSetEnv "EXTRACT__WORKERS" "2"; EvSetEnv "NORMALIZE__WORKERS" "2";
        EvSetEnv "LOAD__WORKERS" "2"; EvUuid4 (next_uuid X w);
        EvPipeline (set_run_settings ∅ (optimized_pipeline X w))] |}.

(** The world when the runtime call has returned or raised. *)
Definition naive_ran (X : Externals) (w : World) : World :=
  let w1 := naive_created X w in
  {| clock := (clock w1 + snd (naive_answer X w))%float;
     environ := environ w1;
     uuids_drawn := uuids_drawn w1;
     stdout := stdout w1;
     trace := trace w1 ++
       [EvRunStarted (naive_pipeline X w) (ResourceList (item_resources (api X))) (environ w);
        EvRunFinished (naive_pipeline X w) (fst (naive_answer X w))] |}.

Definition optimized_ran (X : Externals) (w : World) : World :=
  let w1 := optimized_created X w in
  {| clock := (clock w1 + snd (optimized_answer X w))%float;
     environ := environ w1;
     uuids_drawn := uuids_drawn w1;
     stdout := stdout w1;
     trace := trace w1 ++
       [EvRunStarted (optimized_pipeline X w) (Optimized.jaffle_shop_source (api X))
          (tuned_environ (environ w));
        EvRunFinished (optimized_pipeline X w) (fst (optimized_answer X w))] |}.

(** The line the timing wrapper prints. *)
Definition completed_line (func_name : string) (seconds : float) : string :=
  func_name +:+ " completed in " +:+ format_2f seconds +:+ " seconds".

(** Everything [main] prints once both runs have returned and the
    improvement has been computed. *)
Definition report_lines (X : Externals) (naive_time optimized_time improvement : float)
    : list string :=
  [ nl +:+ "========== PERFORMANCE RESULTS ==========";
    "Naive pipeline: " +:+ format_2f naive_time +:+ " seconds";
    "Optimized pipeline: " +:+ format_2f optimized_time +:+ " seconds";
    "Performance improvement: " +:+ format_2f improvement +:+ "%";
    nl +:+ "========== THREAD INFORMATION ==========";
    "Current thread: " +:+ thread_name X;
    "Active thread count: " +:+ decimal (Z.of_nat (active_count X));
    nl +:+ "========== OPTIMIZATION DETAILS ==========";
    "Key optimizations applied:" ] ++ optimization_details.

(** The world in which each run of [main] starts. *)
Definition naive_start (w : World) : World :=
  set_stdout (stdout w ++ ["Running naive pipeline..."]) w.

Definition optimized_start (w1 : World) : World :=
  set_stdout (stdout w1 ++ [nl +:+ "Running optimized pipeline..."]) w1.

(** Externals whose runtime fails every run after [seconds] seconds. *)
Definition failing_externals (seconds : float) : Externals :=
  {| api := sample_api;
     uuid4_int := fun n => (0xdeadbeef000040008000000000000000 + N.of_nat n)%N;
     pipeline_seconds := fun _ => 0%float;
     runtime := fun _ _ _ => (inr (ExternalError "PipelineStepFailed" "load"), seconds);
     thread_name := "MainThread";
     active_count := 1 |}.

(** The events of one naive run started in [w]. *)
Definition naive_events (X : Externals) (w : World) : list Event :=
  [ EvUuid4 (next_uuid X w);
    EvPipeline (naive_pipeline X w);
    EvRunStarted (naive_pipeline X w) (ResourceList (item_resources (api X))) (environ w);
    EvRunFinished (naive_pipeline X w) (fst (naive_answer X w)) ].

(** The events of one optimized run started in [w]. *)
Definition optimized_events (X : Externals) (w : World) : list Event :=
  [ EvSetEnv "EXTRACT__WORKERS" "2";
    EvSetEnv "NORMALIZE__WORKERS" "2";
    EvSetEnv "LOAD__WORKERS" "2";
    EvUuid4 (next_uuid X w);
    EvPipeline (set_run_settings ∅ (optimized_pipeline X w));
    EvRunStarted (optimized_pipeline X w) (Optimized.jaffle_shop_source (api X))
      (tuned_environ (environ w));
    EvRunFinished (optimized_pipeline X w) (fst (optimized_answer X w)) ].

(** The world in which the optimized run of [main] starts, given the one in
    which [main] started and a naive run that returned. *)
Definition between_runs (X : Externals) (w : World) : World :=
  optimized_start
    (set_stdout
       (stdout (naive_start w) ++
          [completed_line "run_naive_pipeline"
             (clock (naive_ran X (naive_start w)) - clock (naive_start w))%float])
       (naive_ran X (naive_start w))).

(** The value of a hexadecimal digit character (anything else counts as 15). *)
Definition hex_value (c : ascii) : N :=
  (if Ascii.eqb c "0" then 0 else if Ascii.eqb c "1" then 1 else if Ascii.eqb c "2" then 2
   else if Ascii.eqb c "3" then 3 else if Ascii.eqb c "4" then 4
   else if Ascii.eqb c "5" then 5 else if Ascii.eqb c "6" then 6
   else if Ascii.eqb c "7" then 7 else if Ascii.eqb c "8" then 8
   else if Ascii.eqb c "9" then 9 else if Ascii.eqb c "a" then 10
   else if Ascii.eqb c "b" then 11 else if Ascii.eqb c "c" then 12
   else if Ascii.eqb c "d" then 13 else if Ascii.eqb c "e" then 14 else 15)%N%char.

(** The prefix used by the [i]-th construction after world [w]. *)
Definition drawn_prefix (X : Externals) (w : World) (i : nat) : string :=
  str_prefix 8 (uuid_str (uuid4_int X (uuids_drawn w + i))).

(** The pipeline object the production script builds. *)
Definition prod_pipeline : Pipeline :=
  {| pipeline_name := "jaffle_shop";
     destination := "duckdb";
     dataset_name := "jaffle_shop_data";
     dev_mode := false;
     run_settings := Prod.settings |}.

(** The resources the production script hands to the runtime. *)
Definition prod_resources (api : Api) : list Resource :=
  run_resources (Prod.jaffle_shop_source api).

(** The characters of a string, first to last. *)
Fixpoint chars (s : string) : list ascii :=
  match s with
  | EmptyString => []
  | String c s' => c :: chars s'
  end.

(** The sixteen lowercase hexadecimal digits. *)
Definition hex_digits : list ascii := chars "0123456789abcdef".

(** The number of records in a sequence of pages. *)
Definition record_count (ps : list (list Item)) : nat := List.length (concat ps).

(** * Properties *)

(** ** Generators *)

Lemma for_in_list_no_raise {A B} (l : list A) (body : A → Gen B) :
  (∀ x, raised (body x) = None) →
  for_in_list l body = {| yielded := concat (map (fun x => yielded (body x)) l); raised := None |}.
Proof.
  intros Hbody. induction l as [|x l IH]; simpl; [reflexivity|].
  unfold gen_seq. rewrite Hbody, IH. reflexivity.
Qed.

Lemma for_in_no_raise {A B} (g : Gen A) (body : A → Gen B) :
  (∀ x, raised (body x) = None) →
  for_in g body =
    {| yielded := concat (map (fun x => yielded (body x)) (yielded g)); raised := raised g |}.
Proof.
  intros Hbody. unfold for_in. rewrite (for_in_list_no_raise _ _ Hbody).
  unfold gen_seq; simpl. rewrite app_nil_r. reflexivity.
Qed.

Lemma concat_map_singleton {A B} (f : A → B) (l : list A) :
  concat (map (fun x => [f x]) l) = map f l.
Proof. induction l as [|x l IH]; simpl; congruence. Qed.

(** The body of every item-granularity resource. *)
Lemma item_body (g : Gen (list Item)) :
  for_in g (fun page => for_in_list page (fun item => yield (YItem item))) =
    {| yielded := map YItem (concat (yielded g)); raised := raised g |}.
Proof.
  rewrite for_in_no_raise.
  - f_equal. induction (yielded g) as [|p ps IH]; simpl; [reflexivity|].
    rewrite map_app, IH. f_equal.
    rewrite for_in_list_no_raise by reflexivity. simpl. apply concat_map_singleton.
  - intros page. rewrite for_in_list_no_raise by reflexivity. reflexivity.
Qed.

(** The body of every page-granularity resource. *)
Lemma page_body (g : Gen (list Item)) :
  for_in g (fun page => yield (YPage page)) =
    {| yielded := map YPage (yielded g); raised := raised g |}.
Proof.
  rewrite for_in_no_raise by reflexivity. simpl. rewrite concat_map_singleton. reflexivity.
Qed.

Lemma flatten_pages (ps : list (list Item)) : flatten_units (map YPage ps) = concat ps.
Proof.
  unfold flatten_units. induction ps as [|p ps IH]; simpl; [reflexivity|].
  f_equal. exact IH.
Qed.

(** ** Pagination *)

Lemma serves_tail fetch served start n :
  serves fetch served start (S n) → serves fetch served (S start) n.
Proof.
  intros H k Hk. replace (S start + k) with (start + S k) by lia. apply H. lia.
Qed.

Lemma not_empty_page (data : list Item) : data ≠ [] → is_empty_page data = false.
Proof. destruct data; [congruence | reflexivity]. Qed.

(** An empty page after [n] non-empty ones ends the loop, whatever is left
    of the bound. *)
Lemma paginate_loop_empty_page fetch served n :
  ∀ start remaining,
    n < remaining →
    serves fetch served start n →
    fetch (start + n) = inl [] →
    paginate_loop fetch true start remaining =
      {| pages := map served (seq start n); fetched := seq start (S n); failure := None |}.
Proof.
  induction n as [|n IH]; intros start remaining Hlt Hs Hend.
  - destruct remaining as [|r]; [lia|]. simpl.
    replace (start + 0) with start in Hend by lia. rewrite Hend. reflexivity.
  - destruct remaining as [|r]; [lia|].
    destruct (Hs 0 ltac:(lia)) as [Hf Hne].
    replace (start + 0) with start in Hf, Hne by lia.
    cbn [paginate_loop]. rewrite Hf. rewrite (not_empty_page _ Hne). cbn [andb].
    rewrite (IH (S start) r); [reflexivity | lia | by apply serves_tail |].
    replace (S start + n) with (start + S n) by lia. exact Hend.
Qed.

(** With no empty page in sight the loop runs for exactly the bound. *)
Lemma paginate_loop_bound fetch served remaining :
  ∀ start,
    serves fetch served start remaining →
    paginate_loop fetch true start remaining =
      {| pages := map served (seq start remaining);
         fetched := seq start remaining; failure := None |}.
Proof.
  induction remaining as [|r IH]; intros start Hs; [reflexivity|].
  destruct (Hs 0 ltac:(lia)) as [Hf Hne].
  replace (start + 0) with start in Hf, Hne by lia.
  cbn [paginate_loop]. rewrite Hf. rewrite (not_empty_page _ Hne). cbn [andb].
  rewrite (IH (S start)); [reflexivity | by apply serves_tail].
Qed.

(** Whatever the server does, the requests are a prefix of the page numbers
    allowed by the bound, and every page handed on was requested. *)
Lemma paginate_loop_fetched fetch stop remaining :
  ∀ start,
    let r := paginate_loop fetch stop start remaining in
    fetched r = seq start (List.length (fetched r))
    ∧ List.length (fetched r) ≤ remaining
    ∧ List.length (pages r) ≤ List.length (fetched r).
Proof.
  induction remaining as [|n IH]; intros start; simpl; [repeat split; lia|].
  destruct (fetch start) as [data|e]; [|simpl; repeat split; lia].
  destruct (stop && is_empty_page data); simpl; [repeat split; lia|].
  destruct (IH (S start)) as (Hseq & Hlen & Hpages).
  repeat split; [by rewrite <- Hseq | lia | lia].
Qed.

(** [client.paginate] when [n] non-empty pages are served and either the
    bound is reached or the next page is empty. *)
Lemma paginate_serves api client endpoint served n :
  stop_after_empty_page (paginator client) = true →
  n ≤ maximum_page (paginator client) →
  serves (api (base_url client +:+ "/" +:+ endpoint)) served (base_page (paginator client)) n →
  (n < maximum_page (paginator client) →
   api (base_url client +:+ "/" +:+ endpoint) (base_page (paginator client) + n) = inl []) →
  pages (paginate api client endpoint) = map served (seq (base_page (paginator client)) n)
  ∧ failure (paginate api client endpoint) = None
  ∧ List.length (fetched (paginate api client endpoint)) = Nat.min (S n) (maximum_page (paginator client)).
Proof.
  intros Hstop Hle Hs Hend. unfold paginate. rewrite Hstop.
  destruct (decide (n < maximum_page (paginator client))) as [Hlt|Hge].
  - rewrite (paginate_loop_empty_page _ served n) by auto. cbn [pages failure fetched].
    rewrite length_seq. repeat split. lia.
  - assert (maximum_page (paginator client) = n) as Hn by lia. rewrite Hn.
    rewrite (paginate_loop_bound _ served n) by auto. cbn [pages failure fetched].
    rewrite length_seq. repeat split. lia.
Qed.

(** C3: for each endpoint, whatever pages the pagination hands on, the
    naive resource yields exactly the records of those pages, one by one and
    in order, the optimized resource yields exactly those pages, one batch
    per page and in order, and flattening the batches gives the naive
    output.  In particular, when the endpoint serves [N] non-empty pages
    ([N] at most the bound of 5, the next page empty if [N] is below the
    bound), the optimized resource yields those [N] pages and the naive
    resource the concatenation of their records. *)
Theorem granularities_agree (api : Api) (i : nat) (endpoint : string) :
  ENDPOINTS !! i = Some endpoint →
  ∃ item_res page_res,
    item_resources api !! i = Some item_res
    ∧ page_resources api !! i = Some page_res
    ∧ name item_res = endpoint ∧ name page_res = endpoint
    ∧ yielded (generator item_res) =
        map YItem (concat (pages (paginate api Naive.client endpoint)))
    ∧ yielded (generator page_res) =
        map YPage (pages (paginate api Optimized.client endpoint))
    ∧ map YItem (flatten_units (yielded (generator page_res))) =
        yielded (generator item_res)
    ∧ raised (generator page_res) = raised (generator item_res)
    ∧ (∀ (served : nat → list Item) (N : nat),
         N ≤ 5 →
         serves (api (endpoint_url endpoint)) served 1 N →
         (N < 5 → api (endpoint_url endpoint) (1 + N) = inl []) →
         generator item_res =
           {| yielded := map YItem (concat (map served (seq 1 N))); raised := None |}
         ∧ generator page_res =
             {| yielded := map YPage (map served (seq 1 N)); raised := None |}
         ∧ List.length (yielded (generator page_res)) = N).
Proof.
  intros Hi.
  assert (∀ client served N, client = Naive.client →
            N ≤ 5 → serves (api (endpoint_url endpoint)) served 1 N →
            (N < 5 → api (endpoint_url endpoint) (1 + N) = inl []) →
            pages (paginate api client endpoint) = map served (seq 1 N)
            ∧ failure (paginate api client endpoint) = None) as Hpag.
  { intros client served N -> HN Hs Hend.
    destruct (paginate_serves api Naive.client endpoint served N) as (Hp & Hf & _);
      auto. }
  destruct i as [|[|[|i]]]; simpl in Hi; try discriminate; injection Hi as <-;
    (eexists _, _; split; [reflexivity|]; split; [reflexivity|];
     split; [reflexivity|]; split; [reflexivity|];
     cbn [generator Naive.customers Naive.orders Naive.products
          Optimized.customers Optimized.orders Optimized.products];
     rewrite item_body, page_body; unfold paginate_gen; cbn [yielded raised];
     split; [reflexivity|]; split; [reflexivity|];
     split; [by rewrite flatten_pages|];
     split; [reflexivity|];
     intros served N HN Hs Hend;
     destruct (Hpag Naive.client served N eq_refl HN Hs Hend) as [Hp_item Hf_item];
     destruct (Hpag Optimized.client served N eq_refl HN Hs Hend) as [Hp_page Hf_page];
     rewrite Hp_item, Hf_item, Hp_page, Hf_page;
     repeat split; by rewrite !length_map, length_seq).
Qed.

(** The sample API serves three non-empty customer pages and then an empty
    one. *)
Lemma granularities_agree_witness :
  ∃ item_res page_res,
    item_resources sample_api !! 0 = Some item_res
    ∧ page_resources sample_api !! 0 = Some page_res
    ∧ yielded (generator item_res) =
        [YItem "c1"; YItem "c2"; YItem "c3"; YItem "c4"; YItem "c5"; YItem "c6"]
    ∧ yielded (generator page_res) =
        [YPage ["c1"; "c2"]; YPage ["c3"]; YPage ["c4"; "c5"; "c6"]].
Proof.
  destruct (granularities_agree sample_api 0 "customers" eq_refl)
    as (item_res & page_res & Hi & Hp & _ & _ & _ & _ & _ & _ & Hserved).
  destruct (Hserved (fun k => match sample_api (endpoint_url "customers") k with
                              | inl data => data
                              | inr _ => []
                              end) 3) as (Hgi & Hgp & _).
  - lia.
  - intros k Hk. destruct k as [|[|[|k]]]; [| | |lia]; split; (reflexivity || discriminate).
  - intros _. reflexivity.
  - exists item_res, page_res. rewrite Hgi, Hgp. auto.
Defined.

(** C4: pagination always ends.  For the client both variants build (bound
    5, stop on an empty page) and any server: at most 5 pages are requested
    and at most 5 handed on; if [N] non-empty pages are followed by an empty
    one, exactly those [N] pages are handed on and the request that found
    the empty page is the last; if the first 5 pages are all non-empty,
    exactly 5 pages are requested.  The empty-page rule holds for any client
    that stops on empty pages, however large its bound. *)
Theorem pagination_terminates (api : Api) (endpoint : string) :
  let fetch := api (endpoint_url endpoint) in
  let r := paginate api Naive.client endpoint in
  paginate api Optimized.client endpoint = r
  ∧ List.length (fetched r) ≤ 5
  ∧ List.length (pages r) ≤ 5
  ∧ (∀ served N,
       N < 5 → serves fetch served 1 N → fetch (1 + N) = inl [] →
       pages r = map served (seq 1 N) ∧ fetched r = seq 1 (S N) ∧ failure r = None)
  ∧ (∀ served,
       serves fetch served 1 5 →
       pages r = map served (seq 1 5) ∧ fetched r = seq 1 5 ∧ failure r = None)
  ∧ (∀ client served N,
       stop_after_empty_page (paginator client) = true →
       N < maximum_page (paginator client) →
       let first := base_page (paginator client) in
       let fetch' := api (base_url client +:+ "/" +:+ endpoint) in
       serves fetch' served first N → fetch' (first + N) = inl [] →
       pages (paginate api client endpoint) = map served (seq first N)
       ∧ fetched (paginate api client endpoint) = seq first (S N)).
Proof.
  intros fetch r. split; [reflexivity|].
  destruct (paginate_loop_fetched fetch true 5 1) as (_ & Hlen & Hpages).
  split; [exact Hlen|]. split; [exact (Nat.le_trans _ _ _ Hpages Hlen)|].
  split; [|split].
  - intros served N HN Hs Hend. unfold r, paginate. cbn [paginator Naive.client
      stop_after_empty_page base_page maximum_page base_url].
    fold (endpoint_url endpoint). fold fetch.
    rewrite (paginate_loop_empty_page fetch served N) by auto. auto.
  - intros served Hs. unfold r, paginate. cbn [paginator Naive.client
      stop_after_empty_page base_page maximum_page base_url].
    fold (endpoint_url endpoint). fold fetch.
    rewrite (paginate_loop_bound fetch served 5) by auto. auto.
  - intros client served N Hstop HN first fetch' Hs Hend. unfold paginate.
    rewrite Hstop. fold first fetch'.
    rewrite (paginate_loop_empty_page fetch' served N) by auto. auto.
Qed.

(** On the sample API the customers endpoint is asked for pages 1 to 4 and
    hands on the first three. *)
Lemma pagination_terminates_witness :
  pages (paginate sample_api Naive.client "customers") =
    [["c1"; "c2"]; ["c3"]; ["c4"; "c5"; "c6"]]
  ∧ fetched (paginate sample_api Naive.client "customers") = [1; 2; 3; 4].
Proof.
  destruct (pagination_terminates sample_api "customers") as (_ & _ & _ & Hempty & _).
  destruct (Hempty (fun k => match sample_api (endpoint_url "customers") k with
                             | inl data => data
                             | inr _ => []
                             end) 3) as (Hp & Hf & _).
  - lia.
  - intros k Hk. destruct k as [|[|[|k]]]; [| | |lia]; split; (reflexivity || discriminate).
  - reflexivity.
  - rewrite Hp, Hf. split; reflexivity.
Defined.

(** ** The two runs, step by step *)

Lemma create_naive_pipeline_eq X w :
  create_naive_pipeline X w =
    (inl (naive_pipeline X w, item_resources (api X)), naive_created X w).
Proof.
  destruct w as [c env n out tr].
  cbv [create_naive_pipeline naive_created bind uuid4 dlt_pipeline elapse emit ret
    set_trace set_clock set_uuids_drawn clock environ uuids_drawn stdout trace
    naive_pipeline pipeline_name next_pipeline_uuid next_uuid].
  rewrite <- app_assoc. reflexivity.
Qed.

Lemma create_optimized_pipeline_eq X w :
  create_optimized_pipeline X w =
    (inl (optimized_pipeline X w, Optimized.jaffle_shop_source (api X)),
     optimized_created X w).
Proof.
  destruct w as [c env n out tr].
  cbv [create_optimized_pipeline optimized_created bind os_environ_set uuid4
    dlt_pipeline elapse emit ret set_trace set_clock set_uuids_drawn set_environ
    clock environ uuids_drawn stdout trace set_run_settings optimized_pipeline
    pipeline_name destination dataset_name dev_mode run_settings next_pipeline_uuid next_uuid
    tuned_environ].
  rewrite <- !app_assoc. reflexivity.
Qed.

Lemma time_execution_eq {A} (func_name : string) (func : M A) (w : World) :
  time_execution func_name func w =
    match func w with
    | (inl result, w') =>
        let execution_time := (clock w' - clock w)%float in
        (inl (result, execution_time),
         set_stdout (stdout w' ++ [completed_line func_name execution_time]) w')
    | (inr e, w') => (inr e, w')
    end.
Proof.
  unfold time_execution, bind, time_time. destruct (func w) as [[result|e] w']; reflexivity.
Qed.

Lemma run_naive_pipeline_eq X w :
  run_naive_pipeline X w =
    match fst (naive_answer X w) with
    | inl load_info =>
        let execution_time := (clock (naive_ran X w) - clock w)%float in
        (inl (load_info, execution_time),
         set_stdout (stdout w ++ [completed_line "run_naive_pipeline" execution_time])
           (naive_ran X w))
    | inr e => (inr e, naive_ran X w)
    end.
Proof.
  unfold run_naive_pipeline. rewrite time_execution_eq.
  unfold bind at 1. rewrite create_naive_pipeline_eq.
  unfold bind, pipeline_run, naive_ran, naive_answer, ret.
  cbn [environ naive_created].
  destruct (runtime X _ _ _) as [[load_info|e] seconds];
    cbn [fst snd set_trace set_clock set_stdout clock environ uuids_drawn stdout trace
         naive_created];
    rewrite <- !app_assoc; reflexivity.
Qed.

Lemma run_optimized_pipeline_eq X w :
  run_optimized_pipeline X w =
    match fst (optimized_answer X w) with
    | inl load_info =>
        let execution_time := (clock (optimized_ran X w) - clock w)%float in
        (inl (load_info, execution_time),
         set_stdout (stdout w ++ [completed_line "run_optimized_pipeline" execution_time])
           (optimized_ran X w))
    | inr e => (inr e, optimized_ran X w)
    end.
Proof.
  unfold run_optimized_pipeline. rewrite time_execution_eq.
  unfold bind at 1. rewrite create_optimized_pipeline_eq.
  unfold bind, pipeline_run, optimized_ran, optimized_answer, ret.
  cbn [environ optimized_created].
  destruct (runtime X _ _ _) as [[load_info|e] seconds];
    cbn [fst snd set_trace set_clock set_stdout clock environ uuids_drawn stdout trace
         optimized_created];
    rewrite <- !app_assoc; reflexivity.
Qed.

(** ** [main], step by step *)

Lemma set_stdout_id w : set_stdout (stdout w) w = w.
Proof. destruct w; reflexivity. Qed.

Lemma print_all_eq (lines : list string) :
  ∀ w, print_all lines w = (inl tt, set_stdout (stdout w ++ lines) w).
Proof.
  induction lines as [|l ls IH]; intros w; simpl.
  - unfold ret. rewrite app_nil_r, set_stdout_id. reflexivity.
  - unfold bind, print. rewrite IH. unfold set_stdout; simpl.
    rewrite <- app_assoc. reflexivity.
Qed.

Lemma main_eq X w :
  main X w =
    match run_naive_pipeline X (naive_start w) with
    | (inr e, w1) => (inr e, w1)
    | (inl (naive_result, naive_time), w1) =>
        match run_optimized_pipeline X (optimized_start w1) with
        | (inr e, w2) => (inr e, w2)
        | (inl (optimized_result, optimized_time), w2) =>
            match improvement naive_time optimized_time with
            | inr e => (inr e, w2)
            | inl pct =>
                (inl tt,
                 set_stdout (stdout w2 ++ report_lines X naive_time optimized_time pct) w2)
            end
        end
    end.
Proof.
  unfold main. unfold bind at 1. unfold print at 1. fold (naive_start w).
  unfold bind at 1.
  destruct (run_naive_pipeline X (naive_start w)) as [[[naive_result naive_time]|e] w1];
    [|reflexivity].
  unfold bind at 1. unfold print at 1. fold (optimized_start w1).
  unfold bind at 1.
  destruct (run_optimized_pipeline X (optimized_start w1))
    as [[[optimized_result optimized_time]|e] w2]; [|reflexivity].
  unfold bind at 1.
  destruct (improvement naive_time optimized_time) as [pct|e]; [|reflexivity].
  destruct w2 as [c env n out tr].
  cbv [lift ret bind print set_stdout clock environ uuids_drawn stdout trace].
  rewrite print_all_eq.
  cbv [set_stdout clock environ uuids_drawn stdout trace report_lines].
  rewrite <- !app_assoc. reflexivity.
Qed.

(** ** The comparison *)

Lemma improvement_eq (naive_time optimized_time : float) :
  improvement naive_time optimized_time =
    if (naive_time =? 0)%float then inr ZeroDivisionError
    else inl ((naive_time - optimized_time) / naive_time * 100)%float.
Proof.
  unfold improvement, float_truediv. destruct (naive_time =? 0)%float; reflexivity.
Qed.

(** With a naive elapsed time of zero the division raises: on the pair
    (0, 4), and in a whole run of [main] whose two runs take no measurable
    time, where nothing is printed after the second completion line. *)
Lemma zero_naive_time_raises :
  improvement 0 4 = inr ZeroDivisionError
  ∧ fst (main (sample_externals 0 0 0) initial_world) = inr ZeroDivisionError
  ∧ stdout (snd (main (sample_externals 0 0 0) initial_world)) =
      [ "Running naive pipeline...";
        "run_naive_pipeline completed in 0.00 seconds";
        nl +:+ "Running optimized pipeline...";
        "run_optimized_pipeline completed in 0.00 seconds" ].
Proof. repeat split; vm_compute; reflexivity. Qed.

(** C1, as the code has it: the division in [main] is not guarded.  The
    improvement computation raises ZeroDivisionError exactly when the naive
    elapsed time is zero, and then [main] ends with that exception right
    after the optimized run, printing no comparison; for any other naive
    elapsed time the computation returns a float. *)
Theorem division_is_unguarded (naive_time optimized_time : float) :
  (improvement naive_time optimized_time = inr ZeroDivisionError
   ↔ (naive_time =? 0)%float = true)
  ∧ ((naive_time =? 0)%float = false →
     ∃ pct, improvement naive_time optimized_time = inl pct)
  ∧ (∀ X w naive_result w1 optimized_result w2,
       run_naive_pipeline X (naive_start w) = (inl (naive_result, naive_time), w1) →
       run_optimized_pipeline X (optimized_start w1) =
         (inl (optimized_result, optimized_time), w2) →
       (naive_time =? 0)%float = true →
       main X w = (inr ZeroDivisionError, w2)).
Proof.
  rewrite improvement_eq. split; [|split].
  - destruct (naive_time =? 0)%float; split; congruence.
  - intros ->. eauto.
  - intros X w naive_result w1 optimized_result w2 Hn Ho Hz.
    rewrite main_eq, Hn, Ho, improvement_eq, Hz. reflexivity.
Qed.

Lemma division_is_unguarded_witness :
  fst (main (sample_externals 0 0 0) initial_world) = inr ZeroDivisionError.
Proof.
  destruct (division_is_unguarded 0 0) as (_ & _ & Hmain).
  erewrite Hmain; [reflexivity | vm_compute; reflexivity | vm_compute; reflexivity
                  | reflexivity].
Defined.

(** C7: for elapsed times 10.0 and 4.0 the improvement is the float 60.0,
    printed as 60.00; for every pair with a nonzero naive time the
    improvement is [(naive - optimized) / naive * 100], and that value,
    formatted to two decimals, is the line [main] prints. *)
Theorem improvement_formula :
  improvement 10 4 = inl 60%float
  ∧ format_2f 60 = "60.00"
  ∧ (∀ naive_time optimized_time,
       (naive_time =? 0)%float = false →
       improvement naive_time optimized_time =
         inl ((naive_time - optimized_time) / naive_time * 100)%float)
  ∧ (∀ X w naive_result naive_time w1 optimized_result optimized_time w2,
       run_naive_pipeline X (naive_start w) = (inl (naive_result, naive_time), w1) →
       run_optimized_pipeline X (optimized_start w1) =
         (inl (optimized_result, optimized_time), w2) →
       (naive_time =? 0)%float = false →
       fst (main X w) = inl tt
       ∧ stdout (snd (main X w)) !! (List.length (stdout w2) + 3) =
           Some ("Performance improvement: "
                 +:+ format_2f ((naive_time - optimized_time) / naive_time * 100)
                 +:+ "%")).
Proof.
  split; [reflexivity|]. split; [reflexivity|]. split.
  - intros naive_time optimized_time Hnz. rewrite improvement_eq, Hnz. reflexivity.
  - intros X w naive_result naive_time w1 optimized_result optimized_time w2 Hn Ho Hnz.
    rewrite main_eq, Hn, Ho, improvement_eq, Hnz. split; [reflexivity|].
    cbn [snd set_stdout stdout]. rewrite lookup_app_r by lia.
    replace (List.length (stdout w2) + 3 - List.length (stdout w2)) with 3 by lia.
    reflexivity.
Qed.

(** A run measured at 10.0 and 4.0 seconds prints an improvement of 60.00%. *)
Lemma improvement_formula_witness :
  stdout (snd (main (sample_externals 0 10 4) initial_world)) !! 7 =
    Some "Performance improvement: 60.00%".
Proof.
  destruct improvement_formula as (_ & _ & _ & Hmain).
  destruct (Hmain (sample_externals 0 10 4) initial_world "loaded" 10%float
              (snd (run_naive_pipeline (sample_externals 0 10 4) (naive_start initial_world)))
              "loaded" 4%float
              (snd (run_optimized_pipeline (sample_externals 0 10 4)
                      (optimized_start
                         (snd (run_naive_pipeline (sample_externals 0 10 4)
                                 (naive_start initial_world)))))))
    as [_ Hline]; [vm_compute; reflexivity | vm_compute; reflexivity | reflexivity |].
  exact Hline.
Defined.

(** ** What the timer covers *)

(** Construction takes 3 seconds and the naive runtime call 5: the reported
    time is 8 seconds, while the clock moved by 5 seconds around the call
    into the runtime. *)
Lemma elapsed_includes_construction :
  let X := sample_externals 3 5 2 in
  let around_call :=
    (clock (naive_ran X initial_world) - clock (naive_created X initial_world))%float in
  ∃ load_info reported w',
    run_naive_pipeline X initial_world = (inl (load_info, reported), w')
    ∧ reported = 8%float
    ∧ around_call = 5%float
    ∧ (reported =? around_call)%float = false.
Proof.
  cbv zeta. eexists _, _, _. split; [vm_compute; reflexivity|].
  repeat split; vm_compute; reflexivity.
Qed.

(** C2, as the code has it: the decorator wraps the whole run function, so
    the clock is read before the configuration is built and after the
    runtime call returns.  The reported time is the clock after the runtime
    call minus the clock before construction, and the clock before the
    runtime call is already later by the time [dlt.pipeline] took. *)
Theorem elapsed_covers_construction (X : Externals) (w : World) :
  (∀ p resources w1 load_info seconds,
     create_naive_pipeline X w = (inl (p, resources), w1) →
     runtime X p (ResourceList resources) (environ w1) = (inl load_info, seconds) →
     clock w1 = (clock w + pipeline_seconds X (pipeline_name p))%float
     ∧ ∃ w', run_naive_pipeline X w =
               (inl (load_info, ((clock w1 + seconds) - clock w)%float), w')
             ∧ clock w' = (clock w1 + seconds)%float)
  ∧ (∀ p source w1 load_info seconds,
       create_optimized_pipeline X w = (inl (p, source), w1) →
       runtime X p source (environ w1) = (inl load_info, seconds) →
       clock w1 = (clock w + pipeline_seconds X (pipeline_name p))%float
       ∧ ∃ w', run_optimized_pipeline X w =
                 (inl (load_info, ((clock w1 + seconds) - clock w)%float), w')
               ∧ clock w' = (clock w1 + seconds)%float).
Proof.
  split.
  - intros p resources w1 load_info seconds Hc Hr.
    rewrite create_naive_pipeline_eq in Hc. injection Hc as <- <- <-.
    split; [reflexivity|].
    cbn [environ naive_created] in Hr.
    assert (clock (naive_ran X w) = (clock (naive_created X w) + seconds)%float) as Hclock
      by (unfold naive_ran, naive_answer; rewrite Hr; reflexivity).
    rewrite run_naive_pipeline_eq. unfold naive_answer. rewrite Hr. cbn [fst].
    eexists. split; [rewrite Hclock; reflexivity | exact Hclock].
  - intros p source w1 load_info seconds Hc Hr.
    rewrite create_optimized_pipeline_eq in Hc. injection Hc as <- <- <-.
    split; [reflexivity|].
    cbn [environ optimized_created] in Hr.
    assert (clock (optimized_ran X w) = (clock (optimized_created X w) + seconds)%float)
      as Hclock by (unfold optimized_ran, optimized_answer; rewrite Hr; reflexivity).
    rewrite run_optimized_pipeline_eq. unfold optimized_answer. rewrite Hr. cbn [fst].
    eexists. split; [rewrite Hclock; reflexivity | exact Hclock].
Qed.

(** With 3 seconds of construction and a 5-second naive run, 8 seconds are
    reported. *)
Lemma elapsed_covers_construction_witness :
  ∃ w', run_naive_pipeline (sample_externals 3 5 2) initial_world = (inl ("loaded", 8%float), w').
Proof.
  destruct (elapsed_covers_construction (sample_externals 3 5 2) initial_world) as [Hnaive _].
  destruct (Hnaive (naive_pipeline (sample_externals 3 5 2) initial_world)
              (item_resources sample_api)
              (naive_created (sample_externals 3 5 2) initial_world)
              "loaded" 5%float) as [_ [w' [Hrun _]]];
    [reflexivity | reflexivity |].
  exists w'. rewrite Hrun. reflexivity.
Defined.

(** ** Failures of the runtime *)

(** C5: an exception raised by the runtime passes through unchanged.  The
    timing wrapper returns the exception of the function it wraps; each run
    function ends with the runtime's exception after a single call into the
    runtime, printing no completion line and returning no timing pair; and
    [main] ends with the same exception, whichever run failed. *)
Theorem runtime_failures_propagate (X : Externals) (w : World) (e : Exn) :
  (∀ A func_name (func : M A) w0 w',
     func w0 = (inr e, w') → time_execution func_name func w0 = (inr e, w'))
  ∧ (∀ p resources w1 seconds,
       create_naive_pipeline X w = (inl (p, resources), w1) →
       runtime X p (ResourceList resources) (environ w1) = (inr e, seconds) →
       ∃ w', run_naive_pipeline X w = (inr e, w')
             ∧ stdout w' = stdout w
             ∧ trace w' = trace w1 ++
                 [EvRunStarted p (ResourceList resources) (environ w1);
                  EvRunFinished p (inr e)])
  ∧ (∀ p source w1 seconds,
       create_optimized_pipeline X w = (inl (p, source), w1) →
       runtime X p source (environ w1) = (inr e, seconds) →
       ∃ w', run_optimized_pipeline X w = (inr e, w')
             ∧ stdout w' = stdout w
             ∧ trace w' = trace w1 ++
                 [EvRunStarted p source (environ w1); EvRunFinished p (inr e)])
  ∧ (∀ w1, run_naive_pipeline X (naive_start w) = (inr e, w1) → main X w = (inr e, w1))
  ∧ (∀ naive_result naive_time w1 w2,
       run_naive_pipeline X (naive_start w) = (inl (naive_result, naive_time), w1) →
       run_optimized_pipeline X (optimized_start w1) = (inr e, w2) →
       main X w = (inr e, w2)).
Proof.
  split; [|split; [|split; [|split]]].
  - intros A func_name func w0 w' Hf. rewrite time_execution_eq, Hf. reflexivity.
  - intros p resources w1 seconds Hc Hr.
    rewrite create_naive_pipeline_eq in Hc. injection Hc as <- <- <-.
    cbn [environ naive_created] in Hr.
    rewrite run_naive_pipeline_eq. unfold naive_answer. rewrite Hr. cbn [fst].
    eexists. split; [reflexivity|]. split; [reflexivity|].
    unfold naive_ran, naive_answer. rewrite Hr. reflexivity.
  - intros p source w1 seconds Hc Hr.
    rewrite create_optimized_pipeline_eq in Hc. injection Hc as <- <- <-.
    cbn [environ optimized_created] in Hr.
    rewrite run_optimized_pipeline_eq. unfold optimized_answer. rewrite Hr. cbn [fst].
    eexists. split; [reflexivity|]. split; [reflexivity|].
    unfold optimized_ran, optimized_answer. rewrite Hr. reflexivity.
  - intros w1 Hn. rewrite main_eq, Hn. reflexivity.
  - intros naive_result naive_time w1 w2 Hn Ho. rewrite main_eq, Hn, Ho. reflexivity.
Qed.

(** A runtime that fails the naive run makes [run_naive_pipeline] raise that
    very failure. *)
Lemma runtime_failures_propagate_witness :
  fst (run_naive_pipeline (failing_externals 2) initial_world) =
    inr (ExternalError "PipelineStepFailed" "load").
Proof.
  destruct (runtime_failures_propagate (failing_externals 2) initial_world
              (ExternalError "PipelineStepFailed" "load")) as (_ & Hnaive & _).
  destruct (Hnaive (naive_pipeline (failing_externals 2) initial_world)
              (item_resources sample_api)
              (naive_created (failing_externals 2) initial_world) 2%float)
    as (w' & Hrun & _); [reflexivity | reflexivity |].
  rewrite Hrun. reflexivity.
Defined.

(** ** Order of the two runs *)

(** Printing leaves everything but the output untouched, so each run of
    [main] starts from the pipeline the world before the print would give. *)
Lemma naive_ran_start X w :
  trace (naive_ran X (naive_start w)) = trace (naive_ran X w)
  ∧ environ (naive_ran X (naive_start w)) = environ w
  ∧ uuids_drawn (naive_ran X (naive_start w)) = S (uuids_drawn w)
  ∧ naive_answer X (naive_start w) = naive_answer X w.
Proof. repeat split. Qed.

Lemma naive_ran_trace X w : trace (naive_ran X w) = trace w ++ naive_events X w.
Proof. unfold naive_ran, naive_created, naive_events. simpl. by rewrite <- app_assoc. Qed.

Lemma optimized_ran_trace X w : trace (optimized_ran X w) = trace w ++ optimized_events X w.
Proof.
  unfold optimized_ran, optimized_created, optimized_events. simpl. by rewrite <- app_assoc.
Qed.

(** The trace and the environment [main] leaves behind, by the outcome of
    the naive run. *)
Lemma main_trace_environ X w :
  match fst (naive_answer X w) with
  | inr e =>
      fst (main X w) = inr e
      ∧ trace (snd (main X w)) = trace w ++ naive_events X w
      ∧ environ (snd (main X w)) = environ w
  | inl _ =>
      trace (snd (main X w)) =
        trace w ++ naive_events X w ++ optimized_events X (between_runs X w)
      ∧ environ (snd (main X w)) = tuned_environ (environ w)
  end.
Proof.
  rewrite main_eq, run_naive_pipeline_eq.
  destruct (naive_ran_start X w) as (Htr & _ & _ & ->).
  destruct (fst (naive_answer X w)) as [load_info|e] eqn:Hn.
  - cbv beta iota zeta. fold (between_runs X w). rewrite run_optimized_pipeline_eq.
    assert (trace (optimized_ran X (between_runs X w)) =
              trace w ++ naive_events X w ++ optimized_events X (between_runs X w)) as Ht.
    { rewrite optimized_ran_trace, app_assoc. f_equal.
      rewrite <- naive_ran_trace, <- Htr. reflexivity. }
    assert (environ (optimized_ran X (between_runs X w)) = tuned_environ (environ w)) as He
      by reflexivity.
    destruct (fst (optimized_answer X (between_runs X w))) as [load_info'|e'].
    + cbv beta iota zeta.
      destruct (improvement _ _) as [pct|e'']; cbn [snd trace environ set_stdout]; auto.
    + cbn [snd]. auto.
  - cbv beta iota zeta. cbn [fst snd]. rewrite Htr, naive_ran_trace. auto.
Qed.

(** C8: in every execution of [main] the calls that leave the harness occur
    in one fixed order.  The naive configuration is built and run first, and
    the event that closes its runtime call precedes every event of the
    optimized configuration (the three environment writes included).  If the
    naive run raises, [main] ends there and the optimized configuration is
    never started. *)
Theorem runs_are_sequential (X : Externals) (w : World) :
  ∃ (pn : Pipeline) (naive_outcome : LoadInfo + Exn),
    dataset_name pn = "jaffle_naive_" +:+ str_prefix 8 (uuid_str (uuid4_int X (uuids_drawn w)))
    ∧ naive_outcome = fst (runtime X pn (ResourceList (item_resources (api X))) (environ w))
    ∧ let naive_part :=
        [ EvUuid4 (uuid4_int X (uuids_drawn w));
          EvPipeline pn;
          EvRunStarted pn (ResourceList (item_resources (api X))) (environ w);
          EvRunFinished pn naive_outcome ] in
      match naive_outcome with
      | inr e =>
          fst (main X w) = inr e
          ∧ trace (snd (main X w)) = trace w ++ naive_part
      | inl _ =>
          ∃ (po : Pipeline) (optimized_outcome : LoadInfo + Exn),
            dataset_name po =
              "jaffle_optimized_" +:+ str_prefix 8 (uuid_str (uuid4_int X (S (uuids_drawn w))))
            ∧ trace (snd (main X w)) =
                trace w ++ naive_part ++
                  [ EvSetEnv "EXTRACT__WORKERS" "2";
                    EvSetEnv "NORMALIZE__WORKERS" "2";
                    EvSetEnv "LOAD__WORKERS" "2";
                    EvUuid4 (uuid4_int X (S (uuids_drawn w)));
                    EvPipeline (set_run_settings ∅ po);
                    EvRunStarted po (Optimized.jaffle_shop_source (api X))
                      (tuned_environ (environ w));
                    EvRunFinished po optimized_outcome ]
      end.
Proof.
  exists (naive_pipeline X w), (fst (naive_answer X w)).
  split; [reflexivity|]. split; [reflexivity|]. cbv zeta.
  pose proof (main_trace_environ X w) as Hmain.
  destruct (fst (naive_answer X w)) as [load_info|e] eqn:Hn.
  - destruct Hmain as [Ht _].
    exists (optimized_pipeline X (between_runs X w)),
           (fst (optimized_answer X (between_runs X w))).
    split; [reflexivity|]. rewrite Ht. unfold naive_events. rewrite Hn. reflexivity.
  - destruct Hmain as (Hf & Ht & _). split; [exact Hf|].
    rewrite Ht. unfold naive_events. rewrite Hn. reflexivity.
Qed.

(** ** The optimized configuration and the environment *)

Lemma tuned_environ_lookup (env : gmap string string) :
  tuned_environ env !! "EXTRACT__WORKERS" = Some "2"
  ∧ tuned_environ env !! "NORMALIZE__WORKERS" = Some "2"
  ∧ tuned_environ env !! "LOAD__WORKERS" = Some "2"
  ∧ (∀ key, key ≠ "EXTRACT__WORKERS" → key ≠ "NORMALIZE__WORKERS" → key ≠ "LOAD__WORKERS" →
       tuned_environ env !! key = env !! key).
Proof.
  unfold tuned_environ. repeat split.
  - rewrite !lookup_insert_ne by discriminate. apply lookup_insert_eq.
  - rewrite lookup_insert_ne by discriminate. apply lookup_insert_eq.
  - apply lookup_insert_eq.
  - intros key H1 H2 H3. rewrite !lookup_insert_ne by congruence. reflexivity.
Qed.

(** When [main] returns, the six detail lines are the last thing printed. *)
Lemma main_prints_details X w w' :
  main X w = (inl tt, w') → ∃ before, stdout w' = before ++ optimization_details.
Proof.
  rewrite main_eq.
  destruct (run_naive_pipeline X (naive_start w)) as [[[naive_result naive_time]|e] w1];
    [|discriminate].
  destruct (run_optimized_pipeline X (optimized_start w1))
    as [[[optimized_result optimized_time]|e] w2]; [|discriminate].
  destruct (improvement naive_time optimized_time) as [pct|e]; [|discriminate].
  intros H. injection H as <-. cbn [stdout set_stdout]. unfold report_lines.
  rewrite app_assoc. eauto.
Qed.

(** C9: the optimized configuration and the printed summary disagree.  The
    pipeline that [create_optimized_pipeline] returns, which is the one
    handed to the runtime, has [run_settings['execution']['parallelized']]
    equal to [False]; the environment it leaves has the three worker
    variables set to '2'; and whenever [main] returns, the summary it has
    printed ends with the six detail lines, the second of which says that
    [parallelized=True] was set. *)
Theorem parallelized_flag_mismatch (X : Externals) (w : World) :
  (∃ p source w1 execution,
     create_optimized_pipeline X w = (inl (p, source), w1)
     ∧ run_settings p !! "execution" = Some execution
     ∧ execution !! "parallelized" = Some (PyBool false)
     ∧ environ w1 !! "EXTRACT__WORKERS" = Some "2"
     ∧ environ w1 !! "NORMALIZE__WORKERS" = Some "2"
     ∧ environ w1 !! "LOAD__WORKERS" = Some "2"
     ∧ trace (snd (run_optimized_pipeline X w)) !! (List.length (trace w) + 5) =
         Some (EvRunStarted p source (environ w1)))
  ∧ optimization_details !! 1 =
      Some "2. Parallelism: Setting parallelized=True and configuring worker counts"
  ∧ (∀ w', main X w = (inl tt, w') → ∃ before, stdout w' = before ++ optimization_details).
Proof.
  split; [|split; [reflexivity | apply main_prints_details]].
  exists (optimized_pipeline X w), (Optimized.jaffle_shop_source (api X)),
         (optimized_created X w), {[ "parallelized" := PyBool false ]}.
  destruct (tuned_environ_lookup (environ w)) as (He & Hn & Hl & _).
  split; [apply create_optimized_pipeline_eq|].
  split; [vm_compute; reflexivity|]. split; [vm_compute; reflexivity|].
  split; [exact He|]. split; [exact Hn|]. split; [exact Hl|].
  rewrite run_optimized_pipeline_eq.
  assert (trace (optimized_ran X w) !! (List.length (trace w) + 5) =
            Some (EvRunStarted (optimized_pipeline X w) (Optimized.jaffle_shop_source (api X))
                    (environ (optimized_created X w)))) as Ht.
  { rewrite optimized_ran_trace, lookup_app_r by lia.
    replace (List.length (trace w) + 5 - List.length (trace w)) with 5 by lia. reflexivity. }
  destruct (fst (optimized_answer X w)); exact Ht.
Qed.

(** In a run of [main] that returns, the second detail line is printed. *)
Lemma parallelized_flag_mismatch_witness :
  ∃ before,
    stdout (snd (main (sample_externals 0 10 4) initial_world)) =
      before ++ optimization_details.
Proof.
  destruct (parallelized_flag_mismatch (sample_externals 0 10 4) initial_world)
    as (_ & _ & Hmain).
  apply Hmain. vm_compute. reflexivity.
Defined.

(** C10: building the optimized configuration writes the process
    environment and nothing puts it back.  After construction the three
    worker variables are '2' and every other variable is as before; the
    optimized run leaves the environment in that state.  In [main] the
    runtime call of the naive run is made under the environment [main]
    started with; once the naive run has returned, [main] ends (normally or
    not) with the three variables still set, and a run started afterwards in
    the same process calls the runtime under the tuned environment. *)
Theorem environment_is_mutated (X : Externals) (w : World) :
  (∃ p source w1,
     create_optimized_pipeline X w = (inl (p, source), w1)
     ∧ environ w1 =
         <["LOAD__WORKERS" := "2"]>
           (<["NORMALIZE__WORKERS" := "2"]> (<["EXTRACT__WORKERS" := "2"]> (environ w)))
     ∧ environ w1 !! "EXTRACT__WORKERS" = Some "2"
     ∧ environ w1 !! "NORMALIZE__WORKERS" = Some "2"
     ∧ environ w1 !! "LOAD__WORKERS" = Some "2"
     ∧ (∀ key, key ≠ "EXTRACT__WORKERS" → key ≠ "NORMALIZE__WORKERS" →
               key ≠ "LOAD__WORKERS" → environ w1 !! key = environ w !! key)
     ∧ environ (snd (run_optimized_pipeline X w)) = environ w1)
  ∧ (∃ pn data,
       trace (snd (main X w)) !! (List.length (trace w) + 2) =
         Some (EvRunStarted pn data (environ w))
       ∧ (∀ load_info,
            fst (runtime X pn data (environ w)) = inl load_info →
            let after := snd (main X w) in
            environ after = tuned_environ (environ w)
            ∧ ∃ p data',
                trace (snd (run_naive_pipeline X after)) !! (List.length (trace after) + 2) =
                  Some (EvRunStarted p data' (tuned_environ (environ w))))).
Proof.
  split.
  - exists (optimized_pipeline X w), (Optimized.jaffle_shop_source (api X)),
           (optimized_created X w).
    destruct (tuned_environ_lookup (environ w)) as (He & Hn & Hl & Hother).
    split; [apply create_optimized_pipeline_eq|].
    split; [reflexivity|]. split; [exact He|]. split; [exact Hn|]. split; [exact Hl|].
    split; [exact Hother|].
    rewrite run_optimized_pipeline_eq. destruct (fst (optimized_answer X w)); reflexivity.
  - exists (naive_pipeline X w), (ResourceList (item_resources (api X))).
    pose proof (main_trace_environ X w) as Hmain.
    fold (naive_answer X w).
    assert (∀ (t : list Event) (rest : list Event),
              (t ++ naive_events X w ++ rest) !! (List.length t + 2) =
                Some (EvRunStarted (naive_pipeline X w)
                        (ResourceList (item_resources (api X))) (environ w))) as Hthird.
    { intros t rest. rewrite lookup_app_r by lia.
      replace (List.length t + 2 - List.length t) with 2 by lia. reflexivity. }
    split.
    + destruct (fst (naive_answer X w)) as [load_info|e].
      * destruct Hmain as [-> _]. apply Hthird.
      * destruct Hmain as (_ & Ht & _). rewrite Ht.
        rewrite <- (app_nil_r (naive_events X w)). apply Hthird.
    + intros load_info Hok. rewrite Hok in Hmain. destruct Hmain as [_ Henv].
      cbv zeta. split; [exact Henv|].
      exists (naive_pipeline X (snd (main X w))), (ResourceList (item_resources (api X))).
      rewrite run_naive_pipeline_eq.
      assert (trace (naive_ran X (snd (main X w))) !! (List.length (trace (snd (main X w))) + 2) =
                Some (EvRunStarted (naive_pipeline X (snd (main X w)))
                        (ResourceList (item_resources (api X)))
                        (tuned_environ (environ w)))) as Ht.
      { rewrite naive_ran_trace, lookup_app_r by lia.
        replace (List.length (trace (snd (main X w))) + 2 - List.length (trace (snd (main X w))))
          with 2 by lia.
        unfold naive_events. cbn [lookup list_lookup]. rewrite Henv. reflexivity. }
      destruct (fst (naive_answer X (snd (main X w)))); exact Ht.
Qed.

(** After a run of [main] that returns, the worker variables are in the
    environment. *)
Lemma environment_is_mutated_witness :
  environ (snd (main (sample_externals 0 10 4) initial_world)) !! "EXTRACT__WORKERS" =
    Some "2".
Proof.
  destruct (environment_is_mutated (sample_externals 0 10 4) initial_world)
    as (_ & pn & data & Hcall & Hafter).
  assert (pn = naive_pipeline (sample_externals 0 10 4) initial_world
          ∧ data = ResourceList (item_resources sample_api)) as [-> ->].
  { vm_compute in Hcall. injection Hcall as <- <-. split; reflexivity. }
  destruct (Hafter "loaded" eq_refl) as [Henv _].
  rewrite Henv. apply tuned_environ_lookup.
Defined.

(** ** Dataset names *)

Lemma hex_value_digit (d : N) : (d < 16)%N → hex_value (hex_digit d) = d.
Proof.
  intros Hd. destruct d as [|p]; [reflexivity|].
  do 4 (destruct p as [p|p|]; try reflexivity); exfalso; lia.
Qed.

Lemma hex_digit_inj (a b : N) : (a < 16)%N → (b < 16)%N → hex_digit a = hex_digit b → a = b.
Proof.
  intros Ha Hb H. rewrite <- (hex_value_digit a Ha), <- (hex_value_digit b Hb), H.
  reflexivity.
Qed.

Lemma pow16_succ (w : nat) : (16 ^ N.of_nat (S w) = 16 ^ N.of_nat w * 16)%N.
Proof. rewrite Nat2N.inj_succ, N.pow_succ_r'. lia. Qed.

(** Two numbers have the same [w] hex digits exactly when they agree modulo
    [16^w]. *)
Lemma hex_fixed_eq_iff (w : nat) (a b : N) :
  hex_fixed w a = hex_fixed w b ↔ (a mod 16 ^ N.of_nat w = b mod 16 ^ N.of_nat w)%N.
Proof.
  induction w as [|w IH].
  - simpl. rewrite !N.mod_1_r. tauto.
  - cbn [hex_fixed]. rewrite pow16_succ.
    assert (16 ^ N.of_nat w ≠ 0)%N as Hpow by (apply N.pow_nonzero; lia).
    rewrite !N.Div0.mod_mul_r.
    split.
    + intros H. injection H as Hd Hrest. apply IH in Hrest.
      apply hex_digit_inj in Hd; [| apply N.mod_lt; lia | apply N.mod_lt; lia].
      rewrite Hd, Hrest. reflexivity.
    + intros H.
      assert (a mod 16 ^ N.of_nat w = b mod 16 ^ N.of_nat w)%N as Hlow.
      { apply (f_equal (fun x => x mod 16 ^ N.of_nat w)%N) in H.
        rewrite !(N.mul_comm (16 ^ N.of_nat w)), !N.Div0.mod_add, !N.Div0.mod_mod in H.
        exact H. }
      assert ((a / 16 ^ N.of_nat w) mod 16 = (b / 16 ^ N.of_nat w) mod 16)%N as Hhigh.
      { rewrite Hlow in H. apply N.add_cancel_l in H. apply N.mul_cancel_l in H; auto. }
      rewrite Hhigh. f_equal. apply IH. exact Hlow.
Qed.

(** The prefix kept of a UUID is the hexadecimal of its 32 highest bits. *)
Lemma uuid_prefix_hex (u : N) : str_prefix 8 (uuid_str u) = hex_fixed 8 (u / 2 ^ 96)%N.
Proof.
  unfold str_prefix, uuid_str. cbn [hex_fixed substring append].
  rewrite !N.Div0.div_div.
  repeat (f_equal; [f_equal; f_equal; f_equal; vm_compute; reflexivity|]).
  reflexivity.
Qed.

Lemma uuid_prefix_eq_iff (u v : N) :
  str_prefix 8 (uuid_str u) = str_prefix 8 (uuid_str v)
  ↔ ((u / 2 ^ 96) mod 2 ^ 32 = (v / 2 ^ 96) mod 2 ^ 32)%N.
Proof. rewrite !uuid_prefix_hex. apply hex_fixed_eq_iff. Qed.

(** Repeated construction, for any constructor that draws one UUID per call
    and names its dataset [tag] followed by the prefix of that UUID. *)
Lemma construct_many_names {A} (X : Externals) (tag : string) (create : M (Pipeline * A))
    (n : nat) :
  (∀ w, ∃ p a w', create w = (inl (p, a), w')
                  ∧ dataset_name p = tag +:+ drawn_prefix X w 0
                  ∧ uuids_drawn w' = S (uuids_drawn w)) →
  ∀ w, fst (construct_many n create w) =
         inl (map (fun i => tag +:+ drawn_prefix X w i) (seq 0 n)).
Proof.
  intros Hcreate. induction n as [|n IH]; intros w; [reflexivity|].
  cbn [construct_many]. unfold bind at 1.
  destruct (Hcreate w) as (p & a & w' & -> & Hname & Hdrawn).
  unfold bind. specialize (IH w').
  destruct (construct_many n create w') as [[rest|e] w'']; cbn [fst] in IH; [|discriminate].
  injection IH as ->. cbn [ret fst seq map]. rewrite Hname. do 2 f_equal.
  rewrite <- seq_shift, map_map. apply map_ext. intros i.
  unfold drawn_prefix. rewrite Hdrawn.
  replace (S (uuids_drawn w) + i) with (uuids_drawn w + S i) by lia. reflexivity.
Qed.

Lemma create_naive_pipeline_draws X w :
  ∃ p a w', create_naive_pipeline X w = (inl (p, a), w')
            ∧ dataset_name p = "jaffle_naive_" +:+ drawn_prefix X w 0
            ∧ uuids_drawn w' = S (uuids_drawn w).
Proof.
  eexists _, _, _. split; [apply create_naive_pipeline_eq|].
  unfold drawn_prefix. rewrite Nat.add_0_r. split; reflexivity.
Qed.

Lemma create_optimized_pipeline_draws X w :
  ∃ p a w', create_optimized_pipeline X w = (inl (p, a), w')
            ∧ dataset_name p = "jaffle_optimized_" +:+ drawn_prefix X w 0
            ∧ uuids_drawn w' = S (uuids_drawn w).
Proof.
  eexists _, _, _. split; [apply create_optimized_pipeline_eq|].
  unfold drawn_prefix. rewrite Nat.add_0_r. split; reflexivity.
Qed.

Lemma append_inj_r (tag s t : string) : tag +:+ s = tag +:+ t → s = t.
Proof. induction tag as [|c tag IH]; simpl; intros H; [exact H|]. injection H as H. auto. Qed.

Lemma NoDup_tagged (tag : string) (l : list string) :
  NoDup (map (String.append tag) l) ↔ NoDup l.
Proof.
  split.
  - apply NoDup_fmap_1.
  - apply NoDup_fmap_2. intros s t. apply append_inj_r.
Qed.

(** A thousand naive constructions whose UUIDs are all different and all
    begin with the same eight digits: every dataset name is the same. *)
Lemma uuid_prefix_collides :
  ∃ names,
    fst (construct_many 1000 (create_naive_pipeline (sample_externals 0 0 0)) initial_world)
      = inl names
    ∧ List.length names = 1000
    ∧ NoDup (map (uuid4_int (sample_externals 0 0 0)) (seq 0 1000))
    ∧ names !! 0 = Some "jaffle_naive_deadbeef"
    ∧ names !! 1 = Some "jaffle_naive_deadbeef"
    ∧ ¬ NoDup names.
Proof.
  eexists. split.
  { apply (construct_many_names (sample_externals 0 0 0) "jaffle_naive_").
    apply create_naive_pipeline_draws. }
  split; [by rewrite length_map, length_seq|].
  split.
  { apply NoDup_fmap_2; [|apply NoDup_seq].
    intros a b H. cbn [uuid4_int sample_externals] in H. lia. }
  assert (∀ i, i < 1000 →
            map (fun i => "jaffle_naive_" +:+ drawn_prefix (sample_externals 0 0 0) initial_world i)
              (seq 0 1000) !! i
            = Some ("jaffle_naive_" +:+ drawn_prefix (sample_externals 0 0 0) initial_world i))
    as Hlookup.
  { intros i Hi. rewrite list_lookup_fmap, lookup_seq_lt by lia. reflexivity. }
  split; [rewrite Hlookup by lia; vm_compute; reflexivity|].
  split; [rewrite Hlookup by lia; vm_compute; reflexivity|].
  intros Hnd.
  assert (0 = 1) as Habs; [|discriminate].
  eapply (NoDup_lookup _ 0 1 _ Hnd); rewrite Hlookup by lia; vm_compute; reflexivity.
Qed.

(** C6, as the code has it: a dataset name is the variant's tag followed by
    the first eight hex digits of a random UUID, that is, by its 32 highest
    bits.  For [n] consecutive constructions of one variant the names are
    pairwise different exactly when those prefixes are; two UUIDs give the
    same name exactly when they agree on their 32 highest bits; and a naive
    name never equals an optimized name. *)
Theorem dataset_names_follow_uuid_prefix (X : Externals) (w : World) (n : nat) :
  ∃ naive_names optimized_names,
    fst (construct_many n (create_naive_pipeline X) w) = inl naive_names
    ∧ fst (construct_many n (create_optimized_pipeline X) w) = inl optimized_names
    ∧ naive_names =
        map (fun i => "jaffle_naive_" +:+ str_prefix 8 (uuid_str (uuid4_int X (uuids_drawn w + i))))
          (seq 0 n)
    ∧ optimized_names =
        map (fun i =>
               "jaffle_optimized_" +:+ str_prefix 8 (uuid_str (uuid4_int X (uuids_drawn w + i))))
          (seq 0 n)
    ∧ (NoDup naive_names ↔ NoDup (map (drawn_prefix X w) (seq 0 n)))
    ∧ (NoDup optimized_names ↔ NoDup (map (drawn_prefix X w) (seq 0 n)))
    ∧ (∀ i j,
         drawn_prefix X w i = drawn_prefix X w j
         ↔ ((uuid4_int X (uuids_drawn w + i) / 2 ^ 96) mod 2 ^ 32
            = (uuid4_int X (uuids_drawn w + j) / 2 ^ 96) mod 2 ^ 32)%N)
    ∧ (∀ a b, a ∈ naive_names → b ∈ optimized_names → a ≠ b).
Proof.
  eexists _, _.
  split; [apply (construct_many_names X "jaffle_naive_"), create_naive_pipeline_draws|].
  split; [apply (construct_many_names X "jaffle_optimized_"), create_optimized_pipeline_draws|].
  split; [reflexivity|]. split; [reflexivity|].
  split; [|split; [|split]].
  - rewrite <- (NoDup_tagged "jaffle_naive_" (map (drawn_prefix X w) (seq 0 n))), map_map.
    reflexivity.
  - rewrite <- (NoDup_tagged "jaffle_optimized_" (map (drawn_prefix X w) (seq 0 n))), map_map.
    reflexivity.
  - intros i j. apply uuid_prefix_eq_iff.
  - intros a b Ha Hb. apply list_elem_of_fmap in Ha as (i & -> & _).
    apply list_elem_of_fmap in Hb as (j & -> & _). discriminate.
Qed.

(** * Further properties *)

(** ** The production script *)

Lemma jaffle_shop_pipeline_eq X w :
  jaffle_shop_pipeline X w =
    (inl (prod_pipeline, Prod.jaffle_shop_source (api X)),
     set_trace (trace w ++ [EvPipeline (set_run_settings ∅ prod_pipeline)])
       (set_clock (clock w + pipeline_seconds X "jaffle_shop")%float w)).
Proof.
  destruct w as [c env n out tr]. reflexivity.
Qed.

Lemma run_pipeline_eq X w :
  run_pipeline X w =
    (fst (runtime X prod_pipeline (Prod.jaffle_shop_source (api X)) (environ w)),
     {| clock := ((clock w + pipeline_seconds X "jaffle_shop")
                  + snd (runtime X prod_pipeline (Prod.jaffle_shop_source (api X))
                           (environ w)))%float;
        environ := environ w;
        uuids_drawn := uuids_drawn w;
        stdout := stdout w;
        trace := trace w ++
          [ EvPipeline (set_run_settings ∅ prod_pipeline);
            EvRunStarted prod_pipeline (Prod.jaffle_shop_source (api X)) (environ w);
            EvRunFinished prod_pipeline
              (fst (runtime X prod_pipeline (Prod.jaffle_shop_source (api X))
                      (environ w))) ] |}).
Proof.
  unfold run_pipeline. unfold bind at 1. rewrite jaffle_shop_pipeline_eq.
  destruct w as [c env n out tr].
  cbv [bind pipeline_run ret set_trace set_clock clock environ uuids_drawn stdout trace].
  destruct (runtime X prod_pipeline (Prod.jaffle_shop_source (api X)) env)
    as [[load_info|e] seconds]; cbn [fst snd]; rewrite <- !app_assoc; reflexivity.
Qed.

(** Repeated construction with a constructor that always names the same
    dataset. *)
Lemma construct_many_constant {A} (create : M (Pipeline * A)) (dataset : string) (n : nat) :
  (∀ w, ∃ p a w', create w = (inl (p, a), w') ∧ dataset_name p = dataset) →
  ∀ w, fst (construct_many n create w) = inl (repeat dataset n).
Proof.
  intros Hcreate. induction n as [|n IH]; intros w; [reflexivity|].
  cbn [construct_many]. unfold bind at 1.
  destruct (Hcreate w) as (p & a & w' & -> & Hname).
  unfold bind. specialize (IH w').
  destruct (construct_many n create w') as [[rest|e] w'']; cbn [fst] in IH; [|discriminate].
  injection IH as ->. cbn [ret fst repeat]. rewrite Hname. reflexivity.
Qed.

(** X1: the production configuration is the same every time.  Whatever the
    world, [jaffle_shop_pipeline] returns the pipeline named jaffle_shop on
    the dataset jaffle_shop_data, draws no UUID, writes no environment
    variable and prints nothing; any number of consecutive constructions
    all name that one dataset. *)
Theorem production_names_are_fixed (X : Externals) (w : World) (n : nat) :
  (∃ p source w1,
     jaffle_shop_pipeline X w = (inl (p, source), w1)
     ∧ pipeline_name p = "jaffle_shop"
     ∧ dataset_name p = "jaffle_shop_data"
     ∧ destination p = "duckdb"
     ∧ uuids_drawn w1 = uuids_drawn w
     ∧ environ w1 = environ w
     ∧ stdout w1 = stdout w)
  ∧ fst (construct_many n (jaffle_shop_pipeline X) w) = inl (repeat "jaffle_shop_data" n).
Proof.
  split.
  - eexists _, _, _. split; [apply jaffle_shop_pipeline_eq|]. repeat split.
  - apply construct_many_constant. intros w0.
    eexists _, _, _. split; [apply jaffle_shop_pipeline_eq|]. reflexivity.
Qed.

(** X2: [run_pipeline] is a single call into the runtime and nothing more.
    It returns the load info the runtime returns and raises the exception
    the runtime raises; the call is made under the environment the caller
    had, with the pipeline on jaffle_shop_data; nothing is printed, no
    environment variable is written and no UUID is drawn. *)
Theorem production_run_is_one_call (X : Externals) (w : World) :
  ∃ (p : Pipeline) (source : RunData) (outcome : LoadInfo + Exn),
    dataset_name p = "jaffle_shop_data"
    ∧ outcome = fst (runtime X p source (environ w))
    ∧ fst (run_pipeline X w) = outcome
    ∧ trace (snd (run_pipeline X w)) =
        trace w ++ [ EvPipeline (set_run_settings ∅ p);
                     EvRunStarted p source (environ w);
                     EvRunFinished p outcome ]
    ∧ stdout (snd (run_pipeline X w)) = stdout w
    ∧ environ (snd (run_pipeline X w)) = environ w
    ∧ uuids_drawn (snd (run_pipeline X w)) = uuids_drawn w.
Proof.
  exists prod_pipeline, (Prod.jaffle_shop_source (api X)),
         (fst (runtime X prod_pipeline (Prod.jaffle_shop_source (api X)) (environ w))).
  rewrite run_pipeline_eq. repeat split.
Qed.

(** X3: the production script hands the runtime what the optimized
    benchmark hands it.  For every API the source, its resources and the
    client are the same, and the run settings are those of the optimized
    pipeline without the execution section: the extract and normalize
    sections agree and there is no parallelized flag at all. *)
Theorem production_matches_optimized (api : Api) :
  Prod.jaffle_shop_source api = Optimized.jaffle_shop_source api
  ∧ prod_resources api = page_resources api
  ∧ Prod.client = Optimized.client
  ∧ Prod.settings = delete "execution" Optimized.settings
  ∧ Prod.settings !! "execution" = None
  ∧ Prod.settings !! "extract" = Optimized.settings !! "extract"
  ∧ Prod.settings !! "normalize" = Optimized.settings !! "normalize".
Proof.
  repeat split; vm_compute; reflexivity.
Qed.

(** ** Resources and their endpoints *)

(** The loop looks at the answers to the page numbers it may request and at
    nothing else. *)
Lemma paginate_loop_ext (fetch fetch' : nat → list Item + Exn) (stop : bool) (remaining : nat) :
  ∀ start,
    (∀ k, start ≤ k < start + remaining → fetch k = fetch' k) →
    paginate_loop fetch stop start remaining = paginate_loop fetch' stop start remaining.
Proof.
  induction remaining as [|n IH]; intros start Hsame; [reflexivity|].
  cbn [paginate_loop]. rewrite <- (Hsame start) by lia.
  destruct (fetch start) as [data|e]; [|reflexivity].
  destruct (stop && is_empty_page data); [reflexivity|].
  rewrite (IH (S start)); [reflexivity|]. intros k Hk. apply Hsame. lia.
Qed.

Lemma paginate_gen_ext (api api' : Api) (client : RESTClient) (endpoint : string) :
  (∀ k, base_page (paginator client) ≤ k
        < base_page (paginator client) + maximum_page (paginator client) →
        api (base_url client +:+ "/" +:+ endpoint) k
        = api' (base_url client +:+ "/" +:+ endpoint) k) →
  paginate_gen api client endpoint = paginate_gen api' client endpoint.
Proof.
  intros Hsame. unfold paginate_gen, paginate.
  rewrite (paginate_loop_ext _ (api' (base_url client +:+ "/" +:+ endpoint))) by exact Hsame.
  reflexivity.
Qed.

(** X4: every resource carries the name of the endpoint it reads, uses the
    replace disposition, and depends on nothing but pages 1 to 5 of that
    endpoint.  In each of the three builders the i-th resource is named
    after the i-th entry of ENDPOINTS, and two APIs that answer alike on
    pages 1 to 5 of that endpoint give the same resource, whatever they
    answer elsewhere. *)
Theorem resources_read_own_endpoint (api api' : Api) (i : nat) (endpoint : string) :
  ENDPOINTS !! i = Some endpoint →
  (∀ k, 1 ≤ k ≤ 5 → api (endpoint_url endpoint) k = api' (endpoint_url endpoint) k) →
  (∃ item_res page_res prod_res,
     item_resources api !! i = Some item_res
     ∧ page_resources api !! i = Some page_res
     ∧ prod_resources api !! i = Some prod_res
     ∧ name item_res = endpoint ∧ name page_res = endpoint ∧ name prod_res = endpoint
     ∧ write_disposition item_res = "replace"
     ∧ write_disposition page_res = "replace"
     ∧ write_disposition prod_res = "replace")
  ∧ item_resources api !! i = item_resources api' !! i
  ∧ page_resources api !! i = page_resources api' !! i
  ∧ prod_resources api !! i = prod_resources api' !! i.
Proof.
  intros Hi Hsame.
  assert (∀ client, client = Naive.client →
            paginate_gen api client endpoint = paginate_gen api' client endpoint) as Hgen.
  { intros client ->. apply paginate_gen_ext. intros k Hk. apply Hsame.
    cbn [Naive.client paginator base_page maximum_page] in Hk. lia. }
  pose proof (Hgen Naive.client eq_refl) as Hn.
  pose proof (Hgen Optimized.client eq_refl) as Ho.
  pose proof (Hgen Prod.client eq_refl) as Hp.
  destruct i as [|[|[|i]]]; simpl in Hi; try discriminate; injection Hi as <-;
    (split; [eexists _, _, _; repeat split|]);
    cbn [item_resources page_resources prod_resources run_resources
         Optimized.jaffle_shop_source Prod.jaffle_shop_source lookup list_lookup];
    unfold Naive.customers, Naive.orders, Naive.products,
      Optimized.customers, Optimized.orders, Optimized.products,
      Prod.customers, Prod.orders, Prod.products;
    rewrite Hn, Ho, Hp; repeat split.
Qed.

(** Two APIs that differ only on the orders endpoint give the same
    customers resource. *)
Lemma resources_read_own_endpoint_witness :
  item_resources sample_api !! 0 =
    item_resources (fun url page =>
                      if String.eqb url (endpoint_url "orders") then inl ["o1"]
                      else sample_api url page) !! 0.
Proof.
  apply (resources_read_own_endpoint sample_api _ 0 "customers"); [reflexivity|].
  intros k Hk. reflexivity.
Defined.

(** ** The environment, again *)

Lemma tuned_environ_idempotent (env : gmap string string) :
  tuned_environ (tuned_environ env) = tuned_environ env.
Proof.
  apply map_eq. intros key. unfold tuned_environ.
  rewrite !lookup_insert. repeat case_decide; reflexivity.
Qed.

(** X5: writing the worker variables is idempotent and touches three keys
    only.  After one optimized construction the environment has exactly the
    keys it had plus the three worker variables; a second construction in
    the same process leaves the environment as the first one left it, and
    so does a second optimized run. *)
Theorem worker_tuning_is_idempotent (X : Externals) (w : World) :
  let w1 := snd (create_optimized_pipeline X w) in
  let w2 := snd (create_optimized_pipeline X w1) in
  dom (environ w1) =
    ({["EXTRACT__WORKERS"; "NORMALIZE__WORKERS"; "LOAD__WORKERS"]} ∪ dom (environ w) : gset string)
  ∧ environ w2 = environ w1
  ∧ environ (snd (run_optimized_pipeline X (snd (run_optimized_pipeline X w)))) =
      environ (snd (run_optimized_pipeline X w)).
Proof.
  cbv zeta. rewrite !create_optimized_pipeline_eq. cbn [snd environ optimized_created].
  split; [|split].
  - unfold tuned_environ. rewrite !dom_insert_L. apply set_eq. intros key.
    rewrite !elem_of_union, !elem_of_singleton. tauto.
  - apply tuned_environ_idempotent.
  - assert (∀ w0, environ (snd (run_optimized_pipeline X w0)) = tuned_environ (environ w0))
      as Hrun.
    { intros w0. rewrite run_optimized_pipeline_eq.
      destruct (fst (optimized_answer X w0)); reflexivity. }
    rewrite !Hrun. apply tuned_environ_idempotent.
Qed.

(** ** Names built from the UUID prefix *)

Lemma hex_digit_in_digits (d : N) : hex_digit d ∈ hex_digits.
Proof.
  unfold hex_digits. cbn [chars].
  destruct d as [|p]; [repeat constructor|].
  do 4 (destruct p as [p|p|]; try solve [cbn [hex_digit]; repeat constructor]).
Qed.

Lemma hex_fixed_shape (width : nat) (n : N) :
  String.length (hex_fixed width n) = width
  ∧ Forall (fun c => c ∈ hex_digits) (chars (hex_fixed width n)).
Proof.
  induction width as [|w [IHlen IHall]]; cbn [hex_fixed String.length chars].
  - split; [reflexivity | constructor].
  - split; [by rewrite IHlen|]. constructor; [apply hex_digit_in_digits | exact IHall].
Qed.

Lemma length_append (s t : string) :
  String.length (s +:+ t) = String.length s + String.length t.
Proof. induction s as [|c s IH]; simpl; [reflexivity|]. by rewrite IH. Qed.

(** X6: the part of a UUID that reaches the names is always exactly eight
    lowercase hexadecimal digits.  The slice never reaches the first hyphen
    of the UUID text, so every benchmark pipeline name has 25 characters,
    every naive dataset name 21 and every optimized dataset name 25. *)
Theorem uuid_prefix_shape (X : Externals) (w : World) :
  let pipeline_uuid := str_prefix 8 (uuid_str (uuid4_int X (uuids_drawn w))) in
  String.length pipeline_uuid = 8
  ∧ Forall (fun c => c ∈ hex_digits) (chars pipeline_uuid)
  ∧ (∃ p resources w1,
       create_naive_pipeline X w = (inl (p, resources), w1)
       ∧ pipeline_name p = "jaffle_benchmark_" +:+ pipeline_uuid
       ∧ dataset_name p = "jaffle_naive_" +:+ pipeline_uuid
       ∧ String.length (pipeline_name p) = 25
       ∧ String.length (dataset_name p) = 21)
  ∧ (∃ p source w1,
       create_optimized_pipeline X w = (inl (p, source), w1)
       ∧ pipeline_name p = "jaffle_benchmark_" +:+ pipeline_uuid
       ∧ dataset_name p = "jaffle_optimized_" +:+ pipeline_uuid
       ∧ String.length (pipeline_name p) = 25
       ∧ String.length (dataset_name p) = 25).
Proof.
  cbv zeta.
  destruct (hex_fixed_shape 8 (uuid4_int X (uuids_drawn w) / 2 ^ 96)%N) as [Hlen Hall].
  rewrite <- uuid_prefix_hex in Hlen, Hall.
  split; [exact Hlen|]. split; [exact Hall|]. split.
  - eexists _, _, _. split; [apply create_naive_pipeline_eq|].
    cbn [naive_pipeline pipeline_name dataset_name]. unfold next_pipeline_uuid, next_uuid.
    rewrite !length_append, Hlen. repeat split.
  - eexists _, _, _. split; [apply create_optimized_pipeline_eq|].
    cbn [optimized_pipeline pipeline_name dataset_name]. unfold next_pipeline_uuid, next_uuid.
    rewrite !length_append, Hlen. repeat split.
Qed.

(** X7: the pipeline name carries no variant tag.  A naive and an optimized
    configuration get the same pipeline name exactly when the UUIDs they
    drew agree on their 32 highest bits, while their dataset names differ in
    every case. *)
Theorem pipeline_names_can_coincide (X : Externals) (w w' : World)
    (pn po : Pipeline) (resources : list Resource) (source : RunData) (wn wo : World) :
  create_naive_pipeline X w = (inl (pn, resources), wn) →
  create_optimized_pipeline X w' = (inl (po, source), wo) →
  (pipeline_name pn = pipeline_name po
   ↔ ((uuid4_int X (uuids_drawn w) / 2 ^ 96) mod 2 ^ 32
      = (uuid4_int X (uuids_drawn w') / 2 ^ 96) mod 2 ^ 32)%N)
  ∧ dataset_name pn ≠ dataset_name po.
Proof.
  rewrite create_naive_pipeline_eq, create_optimized_pipeline_eq.
  intros Hn Ho. injection Hn as <- _ _. injection Ho as <- _ _.
  cbn [naive_pipeline optimized_pipeline pipeline_name dataset_name].
  unfold next_pipeline_uuid, next_uuid. split; [|discriminate].
  rewrite <- uuid_prefix_eq_iff. split; [apply append_inj_r | intros ->; reflexivity].
Qed.

(** Two UUIDs that differ only in their low bits give one pipeline name to
    both variants. *)
Lemma pipeline_names_can_coincide_witness :
  pipeline_name (naive_pipeline (sample_externals 0 0 0) initial_world)
  = pipeline_name
      (optimized_pipeline (sample_externals 0 0 0)
         (naive_created (sample_externals 0 0 0) initial_world)).
Proof.
  destruct (pipeline_names_can_coincide (sample_externals 0 0 0) initial_world
              (naive_created (sample_externals 0 0 0) initial_world)
              _ _ _ _ _ _
              (create_naive_pipeline_eq _ _) (create_optimized_pipeline_eq _ _))
    as [Hiff _].
  apply Hiff. vm_compute. reflexivity.
Defined.

(** ** What [main] prints *)





(** ** How much each resource hands over *)

Lemma length_concat_nonempty (ps : list (list Item)) :
  Forall (fun p => p ≠ []) ps → List.length ps ≤ List.length (concat ps).
Proof.
  induction 1 as [|p ps Hp _ IH]; [reflexivity|].
  cbn [concat List.length]. rewrite length_app.
  destruct p; [congruence|]. cbn [List.length]. lia.
Qed.

(** X9: the two granularities count differently.  For each endpoint the
    naive resource hands over as many units as there are records in the
    pages its pagination handed on, the optimized resource as many units as
    there are pages, and both end with the failure the pagination ended
    with, if any.  When none of those pages is empty the optimized resource
    hands over no more units than the naive one. *)
Theorem handoff_counts (api : Api) (i : nat) (endpoint : string) :
  ENDPOINTS !! i = Some endpoint →
  ∃ item_res page_res,
    item_resources api !! i = Some item_res
    ∧ page_resources api !! i = Some page_res
    ∧ List.length (yielded (generator item_res)) =
        record_count (pages (paginate api Naive.client endpoint))
    ∧ List.length (yielded (generator page_res)) =
        List.length (pages (paginate api Optimized.client endpoint))
    ∧ raised (generator item_res) = failure (paginate api Naive.client endpoint)
    ∧ raised (generator page_res) = failure (paginate api Optimized.client endpoint)
    ∧ (Forall (fun p => p ≠ []) (pages (paginate api Naive.client endpoint)) →
       List.length (yielded (generator page_res))
       ≤ List.length (yielded (generator item_res))).
Proof.
  intros Hi.
  destruct i as [|[|[|i]]]; simpl in Hi; try discriminate; injection Hi as <-;
    (eexists _, _; split; [reflexivity|]; split; [reflexivity|];
     cbn [generator Naive.customers Naive.orders Naive.products
          Optimized.customers Optimized.orders Optimized.products];
     rewrite item_body, page_body; unfold paginate_gen; cbn [yielded raised];
     rewrite !length_map; unfold record_count;
     repeat split; apply length_concat_nonempty).
Qed.

(** On the sample API the customers pages hold six records in three pages. *)
Lemma handoff_counts_witness :
  ∃ item_res page_res,
    item_resources sample_api !! 0 = Some item_res
    ∧ page_resources sample_api !! 0 = Some page_res
    ∧ List.length (yielded (generator item_res)) = 6
    ∧ List.length (yielded (generator page_res)) = 3.
Proof.
  destruct (handoff_counts sample_api 0 "customers" eq_refl)
    as (item_res & page_res & Hi & Hp & Hitems & Hpages & _).
  exists item_res, page_res. rewrite Hitems, Hpages. auto.
Defined.

(** ** How [main] can end *)




